(** * Medical appointment dashboard (src/app.py): a shallow embedding

    The program loads a table of appointments, cleans it, derives two
    summary tables and four summary cards, and serves seven chart
    callbacks that are all triggered by one dropdown.

    Conventions of the embedding:
    - the table [df] is the list of its rows, a row is a record of the
      fourteen columns of the CSV file and the columns the program
      derives; every cell of the CSV file is present (a missing cell is
      not modelled);
    - a timestamp is the number of nanoseconds since 1970-01-01T00:00:00
      (pandas' datetime64[ns]), a time difference a number of nanoseconds;
    - a float64 is an exact rational kept in lowest terms, or NaN: the
      rounding of float64 arithmetic is not modelled, so the last digit
      of a formatted float can differ from the program's when the value
      is within a rounding error of a tie;
    - a raised Python exception is the [Err] case of [result];
    - Python dicts that are only ever looked up (value counts, group-by
      results, figure layouts) are stdpp [gmap]s. *)

From Stdlib Require Import ZArith QArith Qreduction String Ascii List Lia DecimalString.
From Stdlib Require DecimalZ.
From stdpp Require Import gmap strings list sorting.

Local Open Scope string_scope.
Local Open Scope Z_scope.

(** ** Exceptions *)

Inductive Error :=
  | KeyError (key : string)
  | ValueError (msg : string)
  | InvalidCallbackReturnValue (output : string).

Inductive result (A : Type) :=
  | Ok (a : A)
  | Err (e : Error).
Arguments Ok {A} a.
Arguments Err {A} e.

#[global] Instance result_ret : MRet result := λ A a, Ok a.

#[global] Instance result_bind : MBind result := λ A B k m,
  match m with
  | Ok a => k a
  | Err e => Err e
  end.

(** ** Floats *)

Inductive float :=
  | F (q : Q)
  | NaN.

Definition of_int (z : Z) : float := F (Qred (inject_Z z)).

Definition fmul (a b : float) : float :=
  match a, b with
  | F x, F y => F (Qred (x * y))
  | _, _ => NaN
  end.

Definition fsub (a b : float) : float :=
  match a, b with
  | F x, F y => F (Qred (x - y))
  | _, _ => NaN
  end.

(** [a / b] for an integer count [a] and a positive integer [b]; [0 / 0]
    is NaN, as numpy has it. *)
Definition fdiv_int (a : Z) (b : nat) : float :=
  match b with
  | O => NaN
  | S _ => F (Qred (a # Pos.of_nat b))
  end.

Definition sum (l : list Z) : Z := foldr Z.add 0 l.

(** [Series.mean()]: NaN on an empty series. *)
Definition mean (l : list Z) : float := fdiv_int (sum l) (length l).

(** ** String formatting *)

(** [str(z)] for a Python int. *)
Definition str_int (z : Z) : string := NilZero.string_of_int (Z.to_int z).

(** Nearest integer, ties to the even one. *)
Definition round_half_even (q : Q) : Z :=
  let n := Qnum q in
  let d := Z.pos (Qden q) in
  let fl := n / d in
  let r2 := 2 * (n mod d) in
  if r2 <? d then fl
  else if d <? r2 then fl + 1
  else if Z.even fl then fl else fl + 1.

(** The format specification [.1f]. *)
Definition format_1f (x : float) : string :=
  match x with
  | NaN => "nan"
  | F q =>
      let t := Z.abs (round_half_even (q * 10)) in
      (if Qnum q <? 0 then "-" else "") +:+ str_int (t / 10) +:+ "." +:+ str_int (t mod 10)
  end.

(** The format specification [,] of a non-negative int: digits in groups
    of three from the right. *)
Fixpoint group3 (fuel : nat) (z : Z) : string :=
  match fuel with
  | O => str_int z
  | S fuel' =>
      if z <? 1000 then str_int z
      else
        let low := z mod 1000 in
        group3 fuel' (z / 1000) +:+ "," +:+
        (if low <? 10 then "00" else if low <? 100 then "0" else "") +:+ str_int low
  end.

Definition format_comma (z : Z) : string := group3 (S (Z.to_nat (Z.log2 z))) z.

(** ** Timestamps *)

Definition NS_PER_DAY : Z := 86400 * 1000000000.

(** [Timedelta.days]: the days component of a normalised time difference,
    whose remaining components are never negative. *)
Definition timedelta_days (td : Z) : Z := td / NS_PER_DAY.

Definition day_order : list string :=
  ["Monday"; "Tuesday"; "Wednesday"; "Thursday"; "Friday"; "Saturday"; "Sunday"].

(** [Timestamp.day_name()]; 1970-01-01 was a Thursday. *)
Definition day_name (ts : Z) : string :=
  nth (Z.to_nat ((ts / NS_PER_DAY + 3) mod 7)) day_order "".

(** ** The appointment table *)

(** The first entry under a key, as a dict literal or a column lookup
    finds it. *)
Fixpoint assoc {K V} `{EqDecision K} (k : K) (l : list (K * V)) : option V :=
  match l with
  | [] => None
  | (k', v) :: l' => if decide (k' = k) then Some v else assoc k l'
  end.

(** A row of the CSV file KaggleV2-May-2016.csv, its two timestamp
    columns already parsed. The program names ten of the file's fourteen
    columns; PatientId, AppointmentID, Neighbourhood and Handcap are
    carried along untouched. *)
Record RawRow := {
  raw_PatientId : float;
  raw_AppointmentID : Z;
  raw_Gender : string;
  raw_ScheduledDay : Z;
  raw_AppointmentDay : Z;
  raw_Age : Z;
  raw_Neighbourhood : string;
  raw_Scholarship : Z;
  raw_Hipertension : Z;
  raw_Diabetes : Z;
  raw_Alcoholism : Z;
  raw_Handcap : Z;
  raw_SMS_received : Z;
  raw_No_show : string
}.

(** A half-open interval [[left, right)] of [pd.cut(..., right=False)]. *)
Record Interval := { left : Z; right : Z }.

#[global] Instance Interval_eq_dec : EqDecision Interval.
Proof. solve_decision. Defined.

(** A row of [df] once every derived column has been added. *)
Record Row := {
  PatientId : float;
  AppointmentID : Z;
  Gender : string;
  ScheduledDay : Z;
  AppointmentDay : Z;
  Age : Z;
  Neighbourhood : string;
  Scholarship : Z;
  Hipertension : Z;
  Diabetes : Z;
  Alcoholism : Z;
  Handcap : Z;
  SMS_received : Z;
  No_show : string;
  WaitingDays : Z;
  AppointmentDayOfWeek : string;
  No_show_flag : Z;
  SMS_received_label : string;
  Scholarship_label : string;
  Hipertension_label : string;
  Diabetes_label : string;
  Alcoholism_label : string;
  Age_Group : option Interval
}.

Definition age_bins : list Z := [0; 10; 20; 30; 40; 50; 60; 70; 80; 90; 100].

(** The categories of [pd.cut(bins, right=False)], in order. *)
Fixpoint intervals (bins : list Z) : list Interval :=
  match bins with
  | lo :: (hi :: _) as rest => {| left := lo; right := hi |} :: intervals rest
  | _ => []
  end.

(** [pd.cut(v, bins, right=False)]: the first interval with
    [left <= v < right], missing when there is none. *)
Fixpoint cut (bins : list Z) (v : Z) : option Interval :=
  match bins with
  | lo :: (hi :: _) as rest =>
      if (lo <=? v) && (v <? hi) then Some {| left := lo; right := hi |}
      else cut rest v
  | _ => None
  end.

(** [str] of an interval closed on the left. *)
Definition str_interval (iv : Interval) : string :=
  "[" +:+ str_int (left iv) +:+ ", " +:+ str_int (right iv) +:+ ")".

(** [Series.replace(mapping)]: a value that is a key of the mapping
    becomes the key's value, any other value stays. *)
Definition replace (mapping : list (string * string)) (v : string) : string :=
  default v (assoc v mapping).

(** Lines 21 to 34: the derived columns of one row. *)
Definition derive (r : RawRow) : Row := {|
  PatientId := raw_PatientId r;
  AppointmentID := raw_AppointmentID r;
  Gender := raw_Gender r;
  ScheduledDay := raw_ScheduledDay r;
  AppointmentDay := raw_AppointmentDay r;
  Age := raw_Age r;
  Neighbourhood := raw_Neighbourhood r;
  Scholarship := raw_Scholarship r;
  Hipertension := raw_Hipertension r;
  Diabetes := raw_Diabetes r;
  Alcoholism := raw_Alcoholism r;
  Handcap := raw_Handcap r;
  SMS_received := raw_SMS_received r;
  No_show := replace [("No", "No"); ("Yes", "Yes")] (raw_No_show r);
  WaitingDays := timedelta_days (raw_AppointmentDay r - raw_ScheduledDay r);
  AppointmentDayOfWeek := day_name (raw_AppointmentDay r);
  No_show_flag :=
    if decide (replace [("No", "No"); ("Yes", "Yes")] (raw_No_show r) = "Yes") then 1 else 0;
  SMS_received_label := str_int (raw_SMS_received r);
  Scholarship_label := str_int (raw_Scholarship r);
  Hipertension_label := str_int (raw_Hipertension r);
  Diabetes_label := str_int (raw_Diabetes r);
  Alcoholism_label := str_int (raw_Alcoholism r);
  Age_Group := cut age_bins (raw_Age r)
|}.

(** Lines 20 to 34: [df] as every later line of the program sees it. *)
Definition clean (raw : list RawRow) : list Row :=
  derive <$> filter (λ r, 0 ≤ raw_Age r) raw.

(** ** Aggregation *)

#[global] Instance Interval_countable : Countable Interval :=
  inj_countable' (λ iv, (left iv, right iv)) (λ p, {| left := p.1; right := p.2 |})
    (λ iv, match iv with Build_Interval _ _ => eq_refl end).

(** [groupby(key)[val]]: the values of every group, in row order, under
    the group's key; rows whose key is missing belong to no group. *)
Definition groupby {R A} `{Countable K} (key : R → option K) (val : R → A)
    (rows : list R) : gmap K (list A) :=
  foldr (λ r m,
           match key r with
           | Some k => <[k := val r :: default [] (m !! k)]> m
           | None => m
           end) ∅ rows.

(** A row of either summary table: the group, the mean of the no-show
    flag, and the column 'No-show Rate (%)'. *)
Record RateRow := {
  rate_group : string;
  rate_No_show_flag : float;
  rate_No_show_Rate : float
}.

(** Line 35: with [observed=True] the result has the categories that
    have rows, in category order. *)
Definition age_group_mean (df : list Row) : list (Interval * float) :=
  let groups := groupby Age_Group No_show_flag df in
  omap (λ iv, (λ flags, (iv, mean flags)) <$> groups !! iv) (intervals age_bins).

(** Lines 35 to 37. *)
Definition age_group_rate (df : list Row) : list RateRow :=
  (λ g, {| rate_group := str_interval g.1;
           rate_No_show_flag := g.2;
           rate_No_show_Rate := fmul g.2 (of_int 100) |}) <$> age_group_mean df.

(** Lines 40 and 41: [reindex] keeps the labels of [day_order], in that
    order, with NaN where the grouped series has no such label. *)
Definition day_rate (df : list Row) : list RateRow :=
  let means := mean <$> groupby (λ r, Some (AppointmentDayOfWeek r)) No_show_flag df in
  (λ d, let m := default NaN (means !! d) in
        {| rate_group := d;
           rate_No_show_flag := m;
           rate_No_show_Rate := fmul m (of_int 100) |}) <$> day_order.

(** [Series.value_counts()]: the number of rows of every value present. *)
Definition value_counts (s : list string) : gmap string Z :=
  (λ l : list string, Z.of_nat (length l)) <$> groupby Some id s.

(** [Series.value_counts(normalize=True)]. *)
Definition value_counts_normalize (s : list string) : gmap string float :=
  (λ c, fdiv_int c (length s)) <$> value_counts s.

(** [series[key]] on a series indexed by labels. *)
Definition getitem (s : gmap string float) (key : string) : result float :=
  match s !! key with
  | Some v => Ok v
  | None => Err (KeyError key)
  end.

(** ** The summary cards of the layout (lines 53 to 56) *)

Record Cards := {
  total_appointments : string;
  average_age : string;
  show_rate : string;
  no_show_rate : string
}.

Definition summary_cards (df : list Row) : result Cards :=
  let total := format_comma (Z.of_nat (length df)) in
  let average := format_1f (mean (Age <$> df)) in
  p ← getitem (value_counts_normalize (No_show <$> df)) "Yes";
  let show := format_1f (fsub (of_int 100) (fmul p (of_int 100))) +:+ "%" in
  q ← getitem (value_counts_normalize (No_show <$> df)) "Yes";
  let no_show := format_1f (fmul q (of_int 100)) +:+ "%" in
  mret {| total_appointments := total;
          average_age := average;
          show_rate := show;
          no_show_rate := no_show |}.

(** ** Frames handed to the charting library *)

Inductive Value :=
  | VInt (z : Z)
  | VStr (s : string)
  | VTime (ns : Z)
  | VFloat (f : float)
  | VInterval (iv : Interval)
  | VMissing.

#[global] Instance Q_eq_dec : EqDecision Q.
Proof. solve_decision. Defined.
#[global] Instance float_eq_dec : EqDecision float.
Proof. solve_decision. Defined.
#[global] Instance Value_eq_dec : EqDecision Value.
Proof. solve_decision. Defined.

(** A column: its name and its cells, one per row. *)
Definition Series : Type := string * list Value.

Definition Frame : Type := list Series.

(** The columns of [df]: those of the CSV file in the file's order, then
    the derived ones in the order the program creates them. *)
Definition df_columns : list (string * (Row → Value)) :=
  [ ("PatientId", λ r, VFloat (PatientId r));
    ("AppointmentID", λ r, VInt (AppointmentID r));
    ("Gender", λ r, VStr (Gender r));
    ("ScheduledDay", λ r, VTime (ScheduledDay r));
    ("AppointmentDay", λ r, VTime (AppointmentDay r));
    ("Age", λ r, VInt (Age r));
    ("Neighbourhood", λ r, VStr (Neighbourhood r));
    ("Scholarship", λ r, VInt (Scholarship r));
    ("Hipertension", λ r, VInt (Hipertension r));
    ("Diabetes", λ r, VInt (Diabetes r));
    ("Alcoholism", λ r, VInt (Alcoholism r));
    ("Handcap", λ r, VInt (Handcap r));
    ("SMS_received", λ r, VInt (SMS_received r));
    ("No-show", λ r, VStr (No_show r));
    ("WaitingDays", λ r, VInt (WaitingDays r));
    ("AppointmentDayOfWeek", λ r, VStr (AppointmentDayOfWeek r));
    ("No-show_flag", λ r, VInt (No_show_flag r));
    ("SMS_received_label", λ r, VStr (SMS_received_label r));
    ("Scholarship_label", λ r, VStr (Scholarship_label r));
    ("Hipertension_label", λ r, VStr (Hipertension_label r));
    ("Diabetes_label", λ r, VStr (Diabetes_label r));
    ("Alcoholism_label", λ r, VStr (Alcoholism_label r));
    ("Age_Group", λ r, from_option VInterval VMissing (Age_Group r)) ].

Definition frame_of_df (df : list Row) : Frame :=
  (λ c, (c.1, c.2 <$> df)) <$> df_columns.

(** A summary table as a frame; [index_name] is the name the group
    column has after [reset_index]. *)
Definition frame_of_rates (index_name : string) (t : list RateRow) : Frame :=
  [ (index_name, (λ r, VStr (rate_group r)) <$> t);
    ("No-show_flag", (λ r, VFloat (rate_No_show_flag r)) <$> t);
    ("No-show Rate (%)", (λ r, VFloat (rate_No_show_Rate r)) <$> t) ].

(** Keys of a two-column group-by, ordered by the first column and then
    by the second. *)
Definition key_le (a b : string * Z) : Prop :=
  String.ltb a.1 b.1 = true ∨ (a.1 = b.1 ∧ a.2 ≤ b.2).

#[global] Instance key_le_dec a b : Decision (key_le a b).
Proof. unfold key_le. apply _. Defined.

(** [df.groupby([label, "No-show_flag"]).size().reset_index(name="count")]:
    one row per pair present, sorted by the pair. *)
Definition group_sizes (label : string) (by_col : Row → string) (df : list Row) : Frame :=
  let sizes : gmap (string * Z) nat :=
    length <$> groupby (λ r, Some (by_col r, No_show_flag r)) id df in
  let t := merge_sort (λ a b, key_le a.1 b.1) (map_to_list sizes) in
  [ (label, (λ e, VStr e.1.1) <$> t);
    ("No-show_flag", (λ e, VInt e.1.2) <$> t);
    ("count", (λ e, VInt (Z.of_nat e.2)) <$> t) ].

(** ** Chart specifications *)

Inductive ChartKind := Histogram | Pie | Bar | Box.

Inductive Attr :=
  | AStr (s : string)
  | AInt (z : Z)
  | ABool (b : bool).

Record Figure := {
  fig_kind : ChartKind;
  fig_x : option Series;
  fig_y : option Series;
  fig_names : option Series;
  fig_color : option Series;
  fig_nbins : option Z;
  fig_coloraxis : bool;
  fig_discrete_colors : list (Value * string);
  fig_color_discrete_sequence : list string;
  fig_layout : gmap string Attr;
  fig_xaxes : gmap string Attr;
  fig_yaxes : gmap string Attr
}.

(** [str] of a list of column names: ['a', 'b']. *)
Fixpoint join_quoted (names : list string) : string :=
  match names with
  | [] => ""
  | [n] => "'" +:+ n +:+ "'"
  | n :: rest => "'" +:+ n +:+ "', " +:+ join_quoted rest
  end.

(** The exception a chart constructor raises when its argument [arg] is
    given a name that no column of the frame has. *)
Definition unknown_column (data : Frame) (arg name : string) : Error :=
  ValueError
    ("Value of '" +:+ arg +:+ "' is not the name of a column in 'data_frame'. " +:+
     "Expected one of [" +:+ join_quoted data.*1 +:+ "] but received: " +:+ name +:+
     (if decide (name = "index")
      then String "010"%char " To use the index, pass it in directly as `df.index`."
      else "")).

(** A column argument of a chart constructor: an unknown name raises. *)
Definition column (data : Frame) (arg name : string) : result Series :=
  match assoc name data with
  | Some cells => Ok (name, cells)
  | None => Err (unknown_column data arg name)
  end.

(** A cell of a column of dtype int64 or float64. *)
Definition numeric (v : Value) : bool :=
  match v with
  | VInt _ | VFloat _ => true
  | _ => false
  end.

(** [_is_continuous]: the dtype of the color column is numeric. Only the
    constructors that take [color_continuous_scale] ask; of the four
    used here that is [px.bar]. The dtype is read off the cells; a
    column without cells has no mark to color. *)
Definition is_continuous (cells : list Value) : bool := forallb numeric cells.

(** The distinct values of a column, in the order of their first rows. *)
Definition unique (cells : list Value) : list Value :=
  reverse (remove_dups (reverse cells)).

(** The colors of the marks of a figure with a discrete color column, by
    value of the column: the marks of a value that the call's
    [color_discrete_map] names take the map's color. A value the map
    does not name takes a color of the color sequence and is not listed
    here. *)
Definition discrete_colors (cells : list Value) (color_discrete_map : list (Value * string))
    : list (Value * string) :=
  omap (λ c, match assoc c color_discrete_map with
             | Some col => Some (c, col)
             | None => None
             end) (unique cells).

(** [barmode] is 'relative' when the call does not pass it. *)
Definition px_histogram (data : Frame) (x color : string) (nbins : option Z)
    (barmode : option string) (color_discrete_map : list (Value * string))
    (title : string) : result Figure :=
  xs ← column data "x" x;
  cs ← column data "color" color;
  mret {| fig_kind := Histogram;
          fig_x := Some xs; fig_y := None; fig_names := None; fig_color := Some cs;
          fig_nbins := nbins;
          fig_coloraxis := false;
          fig_discrete_colors := discrete_colors cs.2 color_discrete_map;
          fig_color_discrete_sequence := [];
          fig_layout := <["barmode" := AStr (default "relative" barmode)]>
                          (<["title_text" := AStr title]> ∅);
          fig_xaxes := ∅; fig_yaxes := ∅ |}.

Definition px_pie (data : Frame) (names color : string)
    (color_discrete_map : list (Value * string)) (title : string) : result Figure :=
  ns ← column data "names" names;
  cs ← column data "color" color;
  mret {| fig_kind := Pie;
          fig_x := None; fig_y := None; fig_names := Some ns; fig_color := Some cs;
          fig_nbins := None;
          fig_coloraxis := false;
          fig_discrete_colors := discrete_colors cs.2 color_discrete_map;
          fig_color_discrete_sequence := [];
          fig_layout := <["title_text" := AStr title]> ∅;
          fig_xaxes := ∅; fig_yaxes := ∅ |}.

(** [barmode] is 'relative' when the call does not pass it. A numeric
    color column is put on a continuous color axis, and then the call's
    [color_discrete_map] is not used. *)
Definition px_bar (data : Frame) (x y : string) (color : option string)
    (barmode : option string) (color_discrete_map : list (Value * string))
    (color_discrete_sequence : list string) (title : string) : result Figure :=
  xs ← column data "x" x;
  ys ← column data "y" y;
  cs ← match color with
       | Some c => s ← column data "color" c; mret (Some s)
       | None => mret None
       end;
  mret {| fig_kind := Bar;
          fig_x := Some xs; fig_y := Some ys; fig_names := None; fig_color := cs;
          fig_nbins := None;
          fig_coloraxis :=
            match cs with
            | Some c => is_continuous c.2
            | None => false
            end;
          fig_discrete_colors :=
            match cs with
            | Some c =>
                if is_continuous c.2 then [] else discrete_colors c.2 color_discrete_map
            | None => []
            end;
          fig_color_discrete_sequence := color_discrete_sequence;
          fig_layout := <["barmode" := AStr (default "relative" barmode)]>
                          (<["title_text" := AStr title]> ∅);
          fig_xaxes := ∅; fig_yaxes := ∅ |}.

(** Boxes of several colors are drawn side by side ([boxmode] 'group'). *)
Definition px_box (data : Frame) (x y color : string)
    (color_discrete_map : list (Value * string)) (title : string) : result Figure :=
  xs ← column data "x" x;
  ys ← column data "y" y;
  cs ← column data "color" color;
  mret {| fig_kind := Box;
          fig_x := Some xs; fig_y := Some ys; fig_names := None; fig_color := Some cs;
          fig_nbins := None;
          fig_coloraxis := false;
          fig_discrete_colors := discrete_colors cs.2 color_discrete_map;
          fig_color_discrete_sequence := [];
          fig_layout := <["boxmode" := AStr "group"]> (<["title_text" := AStr title]> ∅);
          fig_xaxes := ∅; fig_yaxes := ∅ |}.

(** Keyword arguments written into a dict, the later ones winning. *)
Definition update (kwargs : list (string * Attr)) (d : gmap string Attr) : gmap string Attr :=
  foldl (λ m kv, <[kv.1 := kv.2]> m) d kwargs.

Definition update_layout (kwargs : list (string * Attr)) (fig : Figure) : Figure :=
  {| fig_kind := fig_kind fig;
     fig_x := fig_x fig; fig_y := fig_y fig; fig_names := fig_names fig;
     fig_color := fig_color fig; fig_nbins := fig_nbins fig;
     fig_coloraxis := fig_coloraxis fig;
     fig_discrete_colors := fig_discrete_colors fig;
     fig_color_discrete_sequence := fig_color_discrete_sequence fig;
     fig_layout := update kwargs (fig_layout fig);
     fig_xaxes := fig_xaxes fig; fig_yaxes := fig_yaxes fig |}.

Definition update_xaxes (kwargs : list (string * Attr)) (fig : Figure) : Figure :=
  {| fig_kind := fig_kind fig;
     fig_x := fig_x fig; fig_y := fig_y fig; fig_names := fig_names fig;
     fig_color := fig_color fig; fig_nbins := fig_nbins fig;
     fig_coloraxis := fig_coloraxis fig;
     fig_discrete_colors := fig_discrete_colors fig;
     fig_color_discrete_sequence := fig_color_discrete_sequence fig;
     fig_layout := fig_layout fig;
     fig_xaxes := update kwargs (fig_xaxes fig); fig_yaxes := fig_yaxes fig |}.

Definition update_yaxes (kwargs : list (string * Attr)) (fig : Figure) : Figure :=
  {| fig_kind := fig_kind fig;
     fig_x := fig_x fig; fig_y := fig_y fig; fig_names := fig_names fig;
     fig_color := fig_color fig; fig_nbins := fig_nbins fig;
     fig_coloraxis := fig_coloraxis fig;
     fig_discrete_colors := fig_discrete_colors fig;
     fig_color_discrete_sequence := fig_color_discrete_sequence fig;
     fig_layout := fig_layout fig;
     fig_xaxes := fig_xaxes fig; fig_yaxes := update kwargs (fig_yaxes fig) |}.

(** The discrete color in which a figure draws the marks of a value of
    its color column: none when the column is on a continuous color
    axis, when the value is not in the column, or when the call's map
    does not name it. *)
Definition mapped_color (fig : Figure) (cell : Value) : option string :=
  assoc cell (fig_discrete_colors fig).

(** ** The program's globals *)

Definition NO_SHOW_COLOR : string := "#FF9500".
Definition SHOW_COLOR : string := "#007AFF".

Record Globals := {
  df : list Row;
  g_age_group_rate : list RateRow;
  g_day_rate : list RateRow
}.

(** Lines 17 to 41, from the rows read from the CSV file. *)
Definition load (raw : list RawRow) : Globals :=
  let df := clean raw in
  {| df := df; g_age_group_rate := age_group_rate df; g_day_rate := day_rate df |}.

(** The dropdown's options, label and value. *)
Definition dropdown_options : list (string * string) :=
  [ ("Age", "Age"); ("Gender", "Gender"); ("Scholarship", "Scholarship");
    ("Hypertension", "Hipertension"); ("Diabetes", "Diabetes");
    ("Alcoholism", "Alcoholism"); ("SMS Received", "SMS_received");
    ("Waiting Days", "WaitingDays") ].

Definition dropdown_values : list string := snd <$> dropdown_options.

Definition dropdown_initial : string := "Age".

(** ** Callbacks *)

(** The keyword arguments every callback passes to [update_layout]. *)
Definition dark : list (string * Attr) :=
  [ ("title_font_color", AStr "white"); ("title_font_size", AInt 24);
    ("font_color", AStr "white"); ("plot_bgcolor", AStr "#2c3e50");
    ("paper_bgcolor", AStr "#1E1E1E") ].

Definition axis_style : list (string * Attr) :=
  [ ("title_font_color", AStr "white"); ("title_font_size", AInt 18);
    ("showgrid", ABool true) ].

Definition update_main_graph (g : Globals) (feature : string) : result Figure :=
  fig ← (if decide (feature ∈ ["Age"; "WaitingDays"]) then
           px_histogram (frame_of_df (df g)) feature "No-show" (Some 50) None
             [(VStr "Yes", NO_SHOW_COLOR); (VStr "No", SHOW_COLOR)]
             ("Distribution of " +:+ feature +:+ " by Attendance")
         else
           px_histogram (frame_of_df (df g)) feature "No-show" None (Some "group")
             [(VStr "Yes", NO_SHOW_COLOR); (VStr "No", SHOW_COLOR)]
             ("Attendance by " +:+ feature));
  mret (update_yaxes axis_style (update_xaxes axis_style (update_layout dark fig))).

Definition update_target_graph (g : Globals) (_ : string) : result Figure :=
  fig ← px_pie (frame_of_df (df g)) "No-show" "No-show"
          [(VStr "Yes", NO_SHOW_COLOR); (VStr "No", SHOW_COLOR)]
          "Show vs No-Show Distribution";
  mret (update_layout dark fig).

Definition update_gender_graph (g : Globals) (_ : string) : result Figure :=
  let gender_counts := group_sizes "Gender" Gender (df g) in
  fig ← px_bar gender_counts "Gender" "count" (Some "No-show_flag") (Some "group")
          [(VInt 1, NO_SHOW_COLOR); (VInt 0, SHOW_COLOR)] []
          "Attendance by Gender (0=Show, 1=No-show)";
  mret (update_layout dark fig).

Definition update_sms_graph (g : Globals) (_ : string) : result Figure :=
  let sms_counts := group_sizes "SMS_received_label" SMS_received_label (df g) in
  fig ← px_bar sms_counts "SMS_received_label" "count" (Some "No-show_flag") (Some "group")
          [(VInt 1, NO_SHOW_COLOR); (VInt 0, SHOW_COLOR)] []
          "Attendance by SMS Received (0=Show, 1=No-show)";
  mret (update_layout dark fig).

Definition update_waiting_by_day (g : Globals) (_ : string) : result Figure :=
  fig ← px_box (frame_of_df (df g)) "AppointmentDayOfWeek" "WaitingDays" "No-show"
          [(VStr "Yes", NO_SHOW_COLOR); (VStr "No", SHOW_COLOR)]
          "Waiting Days by Appointment Day of the Week";
  mret (update_layout dark fig).

Definition update_age_rate_graph (g : Globals) (_ : string) : result Figure :=
  fig ← px_bar (frame_of_rates "Age_Group" (g_age_group_rate g))
          "Age_Group" "No-show Rate (%)" None None [] [NO_SHOW_COLOR]
          "No-Show Rate by Age Group";
  mret (update_layout dark fig).

Definition update_day_rate_graph (g : Globals) (_ : string) : result Figure :=
  fig ← px_bar (frame_of_rates "AppointmentDayOfWeek" (g_day_rate g))
          "AppointmentDayOfWeek" "No-show Rate (%)" None None [] [NO_SHOW_COLOR]
          "No-Show Rate by Day of the Week";
  mret (update_layout dark fig).

(** ** The reactive controller *)

(** The seven chart slots of the page; a slot is empty until its
    callback has answered once. *)
Record Charts := {
  main_graph : option Figure;
  target_distribution : option Figure;
  gender_impact_graph : option Figure;
  sms_impact_graph : option Figure;
  waitingdays_by_day : option Figure;
  age_group_rate_graph : option Figure;
  day_of_week_rate_graph : option Figure
}.

Record State := {
  globals : Globals;
  cards : Cards;
  dropdown : string;
  charts : Charts;
  errors : list Error
}.

(** A value that the JSON encoder of figures can write: numbers,
    strings, timestamps and missing values, but not an Interval. *)
Definition serializable (v : Value) : bool :=
  match v with
  | VInterval _ => false
  | _ => true
  end.

Definition cells_of (s : option Series) : list Value :=
  match s with
  | Some (_, cells) => cells
  | None => []
  end.

(** The cells of all the series of a figure. *)
Definition fig_cells (fig : Figure) : list Value :=
  cells_of (fig_x fig) ++ cells_of (fig_y fig) ++ cells_of (fig_names fig)
    ++ cells_of (fig_color fig).

(** The figure a callback returned, sent to the browser as the value of
    the output [output]: a figure that cannot be written as JSON is
    refused. *)
Definition to_json (output : string) (fig : Figure) : result Figure :=
  if forallb serializable (fig_cells fig) then Ok fig
  else Err (InvalidCallbackReturnValue output).

(** The answer to one callback request. *)
Definition respond (output : string) (answer : result Figure) : result Figure :=
  fig ← answer; to_json output fig.

(** A slot takes the figure of an answer and keeps what it shows when
    the callback raised or its figure was refused. *)
Definition publish (answer : result Figure) (shown : option Figure) : option Figure :=
  match answer with
  | Ok fig => Some fig
  | Err _ => shown
  end.

Definition raised (answer : result Figure) : list Error :=
  match answer with
  | Ok _ => []
  | Err e => [e]
  end.

(** One dropdown event: every callback registered on the dropdown's
    value runs with the new value. *)
Definition on_change (value : string) (st : State) : State :=
  let g := globals st in
  let a1 := respond "main-graph.figure" (update_main_graph g value) in
  let a2 := respond "target-distribution.figure" (update_target_graph g value) in
  let a3 := respond "gender-impact-graph.figure" (update_gender_graph g value) in
  let a4 := respond "sms-impact-graph.figure" (update_sms_graph g value) in
  let a5 := respond "waitingdays-by-day.figure" (update_waiting_by_day g value) in
  let a6 := respond "age-group-rate-graph.figure" (update_age_rate_graph g value) in
  let a7 := respond "day-of-week-rate-graph.figure" (update_day_rate_graph g value) in
  {| globals := g;
     cards := cards st;
     dropdown := value;
     charts :=
       {| main_graph := publish a1 (main_graph (charts st));
          target_distribution := publish a2 (target_distribution (charts st));
          gender_impact_graph := publish a3 (gender_impact_graph (charts st));
          sms_impact_graph := publish a4 (sms_impact_graph (charts st));
          waitingdays_by_day := publish a5 (waitingdays_by_day (charts st));
          age_group_rate_graph := publish a6 (age_group_rate_graph (charts st));
          day_of_week_rate_graph := publish a7 (day_of_week_rate_graph (charts st)) |};
     errors := errors st ++ raised a1 ++ raised a2 ++ raised a3 ++ raised a4
                 ++ raised a5 ++ raised a6 ++ raised a7 |}.

Definition run (events : list string) (st : State) : State :=
  foldl (λ s v, on_change v s) st events.

(** The state of a page before any callback has run. *)
Definition initial (g : Globals) (c : Cards) : State :=
  {| globals := g;
     cards := c;
     dropdown := dropdown_initial;
     charts := {| main_graph := None; target_distribution := None;
                  gender_impact_graph := None; sms_impact_graph := None;
                  waitingdays_by_day := None; age_group_rate_graph := None;
                  day_of_week_rate_graph := None |};
     errors := [] |}.


(** The page as first shown: the callbacks run once with the dropdown's
    initial value. *)
Definition page_load (st : State) : State := on_change (dropdown st) st.

(** The callbacks registered on the dropdown, in the order of the file. *)
Definition callbacks : list (Globals → string → result Figure) :=
  [ update_main_graph; update_target_graph; update_gender_graph; update_sms_graph;
    update_waiting_by_day; update_age_rate_graph; update_day_rate_graph ].

(** ** Notions used in the statements *)

Definition succeeds {A} (r : result A) : Prop := ∃ a, r = Ok a.

(** Rows whose age group is the one [pd.cut] gives their age. *)
Definition grouped_by_age (r : Row) : Prop := Age_Group r = cut age_bins (Age r).

(** The row of the age-group summary for one bucket, if the bucket has
    rows. *)
Definition bucket_row (df : list Row) (iv : Interval) : option RateRow :=
  match filter (λ r, left iv ≤ Age r < right iv) df with
  | [] => None
  | bucket =>
      let m := mean (No_show_flag <$> bucket) in
      Some {| rate_group := str_interval iv;
              rate_No_show_flag := m;
              rate_No_show_Rate := fmul m (of_int 100) |}
  end.

(** The slots of the six callbacks that take the dropdown's value and do
    not read it. *)
Definition independent_charts (st : State) :=
  ( target_distribution (charts st), gender_impact_graph (charts st),
    sms_impact_graph (charts st), waitingdays_by_day (charts st),
    age_group_rate_graph (charts st), day_of_week_rate_graph (charts st) ).

(** ** Sample tables *)

Definition sample_row (age sched appt : Z) (outcome : string) : RawRow :=
  {| raw_PatientId := F 29872499824296; raw_AppointmentID := 5642903;
     raw_Gender := "F"; raw_ScheduledDay := sched; raw_AppointmentDay := appt;
     raw_Age := age; raw_Neighbourhood := "JARDIM DA PENHA";
     raw_Scholarship := 0; raw_Hipertension := 1; raw_Diabetes := 0;
     raw_Alcoholism := 0; raw_Handcap := 0; raw_SMS_received := 0;
     raw_No_show := outcome |}.

Definition sample_man (age : Z) (outcome : string) : RawRow :=
  {| raw_PatientId := F 558997776694438; raw_AppointmentID := 5642503;
     raw_Gender := "M"; raw_ScheduledDay := 0; raw_AppointmentDay := 0;
     raw_Age := age; raw_Neighbourhood := "MATA DA PRAIA";
     raw_Scholarship := 0; raw_Hipertension := 0; raw_Diabetes := 0;
     raw_Alcoholism := 0; raw_Handcap := 0; raw_SMS_received := 1;
     raw_No_show := outcome |}.

(** An appointment booked at 18:38:08 on 2016-04-29 for that same day. *)
Definition same_day_booking : RawRow :=
  sample_row 62 (1461955088 * 1000000000) (1461888000 * 1000000000) "No".

(** One appointment, booked three days ahead for Tuesday 2016-05-03,
    that was missed. *)
Definition one_tuesday : list Row :=
  clean [sample_row 30 (1461974400 * 1000000000) (1462233600 * 1000000000) "Yes"].

Definition decade_sample : list RawRow :=
  [ sample_row 5 0 0 "Yes"; sample_row 17 0 0 "No"; sample_row 15 0 0 "Yes";
    sample_row 100 0 0 "Yes"; sample_row (-1) 0 0 "No" ].

(** Two women and two men, one of each having missed the appointment. *)
Definition mixed_sample : list RawRow :=
  [ sample_row 30 0 0 "Yes"; sample_man 40 "No"; sample_row 50 0 0 "No";
    sample_man 20 "Yes" ].

(** The cards of [decade_sample]. *)
Definition sample_cards : Cards :=
  {| total_appointments := "4"; average_age := "34.2";
     show_rate := "25.0%"; no_show_rate := "75.0%" |}.

(** ** Notions used in further statements *)

(** [int(s)] for a string that is a decimal numeral. *)
Definition parse_int (s : string) : option Z :=
  match NilZero.int_of_string s with
  | Some d => Some (Z.of_int d)
  | None => None
  end.

(** Rows whose flag says whether their outcome is "Yes". *)
Definition flagged (r : Row) : Prop :=
  No_show_flag r = if decide (No_show r = "Yes") then 1 else 0.

(** The seven slots of a page all show a figure. *)
Definition all_shown (st : State) : Prop :=
  is_Some (main_graph (charts st)) ∧ is_Some (target_distribution (charts st)) ∧
  is_Some (gender_impact_graph (charts st)) ∧ is_Some (sms_impact_graph (charts st)) ∧
  is_Some (waitingdays_by_day (charts st)) ∧ is_Some (age_group_rate_graph (charts st)) ∧
  is_Some (day_of_week_rate_graph (charts st)).

(** The number of rows behind a map of group sizes. *)
Definition total_size {K} `{Countable K} (sizes : gmap K nat) : Z :=
  sum ((λ e, Z.of_nat e.2) <$> map_to_list sizes).

(** A series, where the figure has it, has [n] cells. *)
Definition series_length (s : option Series) (n : nat) : Prop :=
  match s with
  | Some (_, cells) => length cells = n
  | None => True
  end.

(** The page as first shown to a browser. *)
Definition first_page (g : Globals) (c : Cards) : State := page_load (initial g c).

(** The colors in which a figure draws the marks of two values of its
    color column. *)
Definition colors_of (fig : Figure) (yes no : Value) : option string * option string :=
  (mapped_color fig yes, mapped_color fig no).

(** A bar chart of counts: one bar for each pair of a value of the
    column [label] and a flag that occurs in the table, ordered by the
    value and then by the flag, as high as the pair has rows; the bars
    of one value stand side by side. *)
Definition counted (fig : Figure) (label : string) (by_col : Row → string)
    (df : list Row) : Prop :=
  ∃ bars : list (string * Z * nat),
    fig_kind fig = Bar ∧
    fig_x fig = Some (label, (λ e, VStr e.1.1) <$> bars) ∧
    fig_color fig = Some ("No-show_flag", (λ e, VInt e.1.2) <$> bars) ∧
    fig_y fig = Some ("count", (λ e, VInt (Z.of_nat e.2)) <$> bars) ∧
    fig_layout fig !! "barmode" = Some (AStr "group") ∧
    Sorted (λ a b, key_le a.1 b.1) bars ∧
    NoDup bars.*1 ∧
    ∀ k n, (k, n) ∈ bars ↔
      (0 < n)%nat ∧
      n = length (filter (λ r, by_col r = k.1 ∧ No_show_flag r = k.2) df).

(** A figure with the title [title] in the dark theme of the page. *)
Definition themed (fig : Figure) (title : string) : Prop :=
  fig_layout fig !! "title_text" = Some (AStr title) ∧
  fig_layout fig !! "title_font_color" = Some (AStr "white") ∧
  fig_layout fig !! "title_font_size" = Some (AInt 24) ∧
  fig_layout fig !! "font_color" = Some (AStr "white") ∧
  fig_layout fig !! "plot_bgcolor" = Some (AStr "#2c3e50") ∧
  fig_layout fig !! "paper_bgcolor" = Some (AStr "#1E1E1E").

(** Axes with a white title of size 18 and a grid. *)
Definition gridded (axes : gmap string Attr) : Prop :=
  axes !! "title_font_color" = Some (AStr "white") ∧
  axes !! "title_font_size" = Some (AInt 18) ∧
  axes !! "showgrid" = Some (ABool true).

(** ** Tactics *)

(** Case analysis on the first conditional in sight. *)
Ltac case_if :=
  match goal with
  | |- context [if ?b then _ else _] => destruct b eqn:?
  | H : context [if ?b then _ else _] |- _ => destruct b eqn:?
  end.

(** Membership in a list given by its elements. *)
Ltac in_list := vm_compute; repeat first [left | right].

(** * Properties *)

(** ** Sample evaluations *)

Example ex_fmt1 : format_1f (fsub (of_int 100) (fmul (fdiv_int 3 3) (of_int 100))) = "0.0".
Proof. vm_compute. reflexivity. Qed.
Example ex_fmt2 : format_1f (fmul (fdiv_int 1 3) (of_int 100)) = "33.3".
Proof. vm_compute. reflexivity. Qed.
Example ex_fmt3 : format_comma 110526 = "110,526".
Proof. vm_compute. reflexivity. Qed.
Example ex_fmt4 : format_comma 1000005 = "1,000,005".
Proof. vm_compute. reflexivity. Qed.
Example ex_day : day_name (1461888000 * 1000000000) = "Friday".
Proof. vm_compute. reflexivity. Qed.

Example ex_cards : summary_cards (clean decade_sample) = Ok sample_cards.
Proof. vm_compute. reflexivity. Qed.

Example ex_one_tuesday :
  (λ r, (WaitingDays r, AppointmentDayOfWeek r)) <$> one_tuesday = [(3, "Tuesday")].
Proof. vm_compute. reflexivity. Qed.

Example ex_gender_counts :
  group_sizes "Gender" Gender
    (clean [sample_man 40 "Yes"; sample_row 5 0 0 "Yes"; sample_man 41 "No";
            sample_row 6 0 0 "Yes"; sample_man 42 "Yes"]) =
  [ ("Gender", [VStr "F"; VStr "M"; VStr "M"]);
    ("No-show_flag", [VInt 1; VInt 0; VInt 1]);
    ("count", [VInt 2; VInt 1; VInt 2]) ].
Proof. vm_compute. reflexivity. Qed.

Example ex_unknown_column :
  update_main_graph (load decade_sample) "Weight" =
  Err (ValueError
         ("Value of 'x' is not the name of a column in 'data_frame'. Expected one of "
          +:+ "['PatientId', 'AppointmentID', 'Gender', 'ScheduledDay', 'AppointmentDay', "
          +:+ "'Age', 'Neighbourhood', 'Scholarship', 'Hipertension', 'Diabetes', "
          +:+ "'Alcoholism', 'Handcap', 'SMS_received', 'No-show', 'WaitingDays', "
          +:+ "'AppointmentDayOfWeek', 'No-show_flag', 'SMS_received_label', "
          +:+ "'Scholarship_label', 'Hipertension_label', 'Diabetes_label', "
          +:+ "'Alcoholism_label', 'Age_Group'] but received: Weight")).
Proof. vm_compute. reflexivity. Qed.

(** ** Grouping *)

Section grouping.
Context {R A : Type} `{Countable K}.
Variables (key : R → option K) (val : R → A).

(** A group holds the values of exactly the rows with its key, in row
    order, and a key without rows has no group. *)
Lemma groupby_lookup (rows : list R) (k : K) :
  groupby key val rows !! k =
    match val <$> filter (λ r, key r = Some k) rows with
    | [] => None
    | l => Some l
    end.
Proof.
  induction rows as [|r rows IH]; [done|].
  cbn [groupby foldr]. fold (groupby key val rows).
  destruct (key r) as [k'|] eqn:Hk.
  - destruct (decide (k' = k)) as [->|Hne].
    + rewrite lookup_insert_eq, filter_cons_True by done.
      rewrite IH. cbn. by destruct (val <$> filter _ rows).
    + rewrite lookup_insert_ne, filter_cons_False by congruence. done.
  - rewrite filter_cons_False by congruence. done.
Qed.

Lemma groupby_lookup_None (rows : list R) (k : K) :
  groupby key val rows !! k = None ↔ filter (λ r, key r = Some k) rows = [].
Proof.
  rewrite groupby_lookup.
  destruct (filter _ rows) as [|r l]; cbn; split; congruence.
Qed.
End grouping.

(** ** Cleaning *)

Lemma clean_Age (raw : list RawRow) :
  Age <$> clean raw = filter (λ a, 0 ≤ a) (raw_Age <$> raw).
Proof.
  unfold clean. induction raw as [|r raw IH]; [done|].
  cbn [fmap list_fmap]. rewrite !filter_cons.
  destruct (decide (0 ≤ raw_Age r)); cbn; [f_equal|]; exact IH.
Qed.

(** Line 25 replaces every outcome label by itself. *)
Lemma derive_No_show (r : RawRow) : No_show (derive r) = raw_No_show r.
Proof.
  cbn [derive No_show]. unfold replace. cbn [assoc].
  repeat case_decide; subst; done.
Qed.

Lemma clean_derive (raw : list RawRow) (r : Row) :
  r ∈ clean raw ↔ ∃ r0, r = derive r0 ∧ r0 ∈ raw ∧ 0 ≤ raw_Age r0.
Proof.
  unfold clean. rewrite list_elem_of_fmap.
  split; intros (r0 & -> & Hin); exists r0; split; try done.
  - by apply list_elem_of_filter in Hin as [? ?].
  - destruct Hin. by apply list_elem_of_filter.
Qed.

Lemma clean_Age_nonneg (raw : list RawRow) : Forall (λ r, 0 ≤ Age r) (clean raw).
Proof.
  apply Forall_forall. intros r (r0 & -> & _ & Hage)%clean_derive. exact Hage.
Qed.

Lemma on_change_globals (v : string) (st : State) : globals (on_change v st) = globals st.
Proof. reflexivity. Qed.

Lemma run_globals (events : list string) (st : State) : globals (run events st) = globals st.
Proof.
  revert st. induction events as [|v events IH]; intros st; [done|].
  cbn. fold (run events (on_change v st)). by rewrite IH.
Qed.

(** C7. The cleaned table holds exactly the rows of the input whose age is
    not negative, in their order, so every row of it has age >= 0; and
    the table the callbacks see after any sequence of dropdown events is
    still that table. *)
Theorem cleaned_ages_nonnegative (raw : list RawRow) (c : Cards) (events : list string) :
  Age <$> clean raw = filter (λ a, 0 ≤ a) (raw_Age <$> raw) ∧
  Forall (λ r, 0 ≤ Age r) (clean raw) ∧
  df (globals (run events (initial (load raw) c))) = clean raw.
Proof.
  split; [apply clean_Age|]. split; [apply clean_Age_nonneg|].
  by rewrite run_globals.
Qed.

(** ** Waiting days *)

(** C3, as stated, fails: the difference of this row is -18:38:08, which
    truncates to 0 whole days, and the row's waiting days are -1. *)
Lemma waiting_days_not_truncated :
  clean [same_day_booking] = [derive same_day_booking] ∧
  WaitingDays (derive same_day_booking) = -1 ∧
  (raw_AppointmentDay same_day_booking - raw_ScheduledDay same_day_booking)
    `quot` NS_PER_DAY = 0.
Proof. by vm_compute. Qed.

(** C3, amended. The waiting days of every row of the cleaned table are
    the difference of appointment and scheduled timestamp rounded down to
    whole days: the truncated difference when the difference is not
    negative or is a whole number of days, and one less otherwise. *)
Theorem waiting_days_floor (raw : list RawRow) (r : Row) :
  r ∈ clean raw →
  let d := AppointmentDay r - ScheduledDay r in
  WaitingDays r * NS_PER_DAY ≤ d < (WaitingDays r + 1) * NS_PER_DAY ∧
  WaitingDays r =
    if decide (0 ≤ d ∨ d `mod` NS_PER_DAY = 0) then d `quot` NS_PER_DAY
    else d `quot` NS_PER_DAY - 1.
Proof.
  intros (r0 & -> & _)%clean_derive. cbn -[NS_PER_DAY Z.div Z.quot Z.modulo].
  unfold timedelta_days.
  set (d := raw_AppointmentDay r0 - raw_ScheduledDay r0).
  assert (Hpos : 0 < NS_PER_DAY) by done.
  generalize dependent NS_PER_DAY. intros b Hb.
  split.
  - pose proof (Z.mul_div_le d b Hb). pose proof (Z.mul_succ_div_gt d b Hb). lia.
  - destruct (decide _) as [[Hd|Hd]|Hd].
    + by rewrite Z.quot_div_nonneg.
    + apply Z.mod_divide in Hd; [|lia]. symmetry. apply Z.quot_div_exact; [lia|done].
    + assert (d < 0 ∧ d `mod` b ≠ 0) as [Hneg Hrem] by lia.
      replace (d `quot` b) with (- ((- d) `div` b)).
      * rewrite Z_div_nz_opp_full by (done || lia). lia.
      * rewrite <- Z.quot_div_nonneg, Z.quot_opp_l by lia. lia.
Qed.

Lemma waiting_days_floor_witness :
  let r := derive same_day_booking in
  let d := AppointmentDay r - ScheduledDay r in
  WaitingDays r * NS_PER_DAY ≤ d < (WaitingDays r + 1) * NS_PER_DAY ∧
  WaitingDays r =
    if decide (0 ≤ d ∨ d `mod` NS_PER_DAY = 0) then d `quot` NS_PER_DAY
    else d `quot` NS_PER_DAY - 1.
Proof.
  apply (waiting_days_floor [same_day_booking]).
  vm_compute. left.
Defined.

(** ** Summary cards *)

Lemma filter_Some_eq {A} (f : A → string) (k : string) (l : list A) :
  filter (λ v, Some v = Some k) (f <$> l) = f <$> filter (λ r, f r = k) l.
Proof.
  induction l as [|a l IH]; [done|].
  cbn [fmap list_fmap]. rewrite !filter_cons.
  destruct (decide (f a = k)) as [Heq|Hne].
  - rewrite decide_True by congruence. cbn. by rewrite <- IH.
  - rewrite decide_False by congruence. exact IH.
Qed.

Lemma value_counts_normalize_lookup (df : list Row) (k : string) :
  value_counts_normalize (No_show <$> df) !! k =
    match filter (λ r, No_show r = k) df with
    | [] => None
    | l => Some (fdiv_int (Z.of_nat (length l)) (length df))
    end.
Proof.
  unfold value_counts_normalize, value_counts.
  rewrite !lookup_fmap, groupby_lookup, list_fmap_id, filter_Some_eq, length_fmap.
  destruct (filter _ df) as [|r l]; [done|]. cbn. by rewrite length_fmap.
Qed.

Lemma fdiv_int_self (n : nat) : fdiv_int (Z.of_nat (S n)) (S n) = F 1.
Proof.
  unfold fdiv_int. f_equal. change 1%Q with (Qred 1). apply Qred_complete.
  unfold Qeq. cbn [Qnum Qden]. lia.
Qed.

(** C10. On a table without a single row of outcome "Yes" (the empty
    table included) the computation of the summary cards raises
    KeyError('Yes'): no card text, "100.0%" or other, is produced. *)
Theorem cards_raise_without_no_show (df : list Row) :
  Forall (λ r, No_show r ≠ "Yes") df →
  summary_cards df = Err (KeyError "Yes") ∧ ∀ c, summary_cards df ≠ Ok c.
Proof.
  intros Hno.
  assert (summary_cards df = Err (KeyError "Yes")) as ->; [|done].
  unfold summary_cards, getitem. rewrite value_counts_normalize_lookup.
  replace (filter (λ r, No_show r = "Yes") df) with (@nil Row); [done|].
  symmetry. induction Hno as [|r l Hr _ IH]; [done|].
  by rewrite filter_cons_False.
Qed.

Lemma cards_raise_without_no_show_witness :
  summary_cards (clean [sample_row 40 0 0 "No"]) = Err (KeyError "Yes") ∧
  ∀ c, summary_cards (clean [sample_row 40 0 0 "No"]) ≠ Ok c.
Proof.
  apply cards_raise_without_no_show.
  vm_compute. repeat constructor. discriminate.
Defined.

(** C6, as stated, fails: every row of the empty table has outcome "Yes",
    and on the empty table no card is computed. *)
Lemma cards_all_no_show_empty_table :
  Forall (λ r, No_show r = "Yes") (clean []) ∧
  summary_cards (clean []) = Err (KeyError "Yes").
Proof. split; [constructor | reflexivity]. Qed.

(** C6, amended. On a table with at least one row in which every row has
    outcome "Yes", the show-rate card reads "0.0%" and the no-show-rate
    card reads "100.0%". *)
Theorem cards_all_no_show (df : list Row) :
  df ≠ [] →
  Forall (λ r, No_show r = "Yes") df →
  ∃ c, summary_cards df = Ok c ∧ show_rate c = "0.0%" ∧ no_show_rate c = "100.0%".
Proof.
  intros Hne Hall.
  assert (filter (λ r, No_show r = "Yes") df = df) as Hfilter.
  { clear Hne. induction Hall as [|r l Hr _ IH]; [done|].
    by rewrite filter_cons_True, IH. }
  destruct df as [|r df]; [done|].
  unfold summary_cards, getitem.
  rewrite value_counts_normalize_lookup, Hfilter.
  cbn [length]. rewrite fdiv_int_self.
  eexists. split; [reflexivity|]. split; vm_compute; reflexivity.
Qed.

Lemma cards_all_no_show_witness :
  ∃ c, summary_cards (clean [sample_row 40 0 0 "Yes"; sample_row 7 0 0 "Yes"]) = Ok c ∧
       show_rate c = "0.0%" ∧ no_show_rate c = "100.0%".
Proof.
  apply cards_all_no_show.
  - vm_compute. discriminate.
  - vm_compute. repeat constructor.
Defined.

(** ** Rates by weekday *)

Lemma day_rate_row (df : list Row) (row : RateRow) :
  row ∈ day_rate df ↔
  ∃ d, d ∈ day_order ∧
       let m := match filter (λ r, AppointmentDayOfWeek r = d) df with
                | [] => NaN
                | l => mean (No_show_flag <$> l)
                end in
       row = {| rate_group := d; rate_No_show_flag := m;
                rate_No_show_Rate := fmul m (of_int 100) |}.
Proof.
  unfold day_rate. rewrite list_elem_of_fmap.
  assert (∀ d, default NaN
                 ((mean <$> groupby (λ r, Some (AppointmentDayOfWeek r)) No_show_flag df) !! d)
               = match filter (λ r, AppointmentDayOfWeek r = d) df with
                 | [] => NaN
                 | l => mean (No_show_flag <$> l)
                 end) as Hm.
  { intros d. rewrite lookup_fmap, groupby_lookup.
    rewrite (list_filter_iff _ (λ r, AppointmentDayOfWeek r = d)) by (intros r; naive_solver).
    by destruct (filter _ df). }
  split; intros (d & Hrow & Hd); exists d.
  - rewrite Hm in Hrow. done.
  - cbv zeta in Hd. rewrite Hm. done.
Qed.

(** C5. The weekday summary has one row per name of [day_order], Monday
    to Sunday in that order, whatever the table; the rate of a weekday
    without appointments is the missing value NaN, not the number 0, and
    the rate of a weekday with appointments is a number, the mean of
    their no-show flags times 100. *)
Theorem day_rate_weekdays (df : list Row) :
  rate_group <$> day_rate df =
    ["Monday"; "Tuesday"; "Wednesday"; "Thursday"; "Friday"; "Saturday"; "Sunday"] ∧
  ∀ row, row ∈ day_rate df →
    let appointments := filter (λ r, AppointmentDayOfWeek r = rate_group row) df in
    if decide (appointments = []) then
      rate_No_show_Rate row = NaN ∧ rate_No_show_Rate row ≠ F 0
    else
      rate_No_show_Rate row = fmul (mean (No_show_flag <$> appointments)) (of_int 100) ∧
      rate_No_show_Rate row ≠ NaN.
Proof.
  split; [reflexivity|].
  intros row (d & _ & ->)%day_rate_row. cbn [rate_group rate_No_show_Rate].
  destruct (filter _ df) as [|r l] eqn:Hf.
  - rewrite decide_True by done. done.
  - rewrite decide_False by done. done.
Qed.

Lemma day_rate_weekdays_witness :
  rate_group <$> day_rate one_tuesday =
    ["Monday"; "Tuesday"; "Wednesday"; "Thursday"; "Friday"; "Saturday"; "Sunday"] ∧
  rate_No_show_Rate
    {| rate_group := "Monday"; rate_No_show_flag := NaN; rate_No_show_Rate := NaN |} ≠ F 0 ∧
  rate_No_show_Rate
    {| rate_group := "Tuesday"; rate_No_show_flag := F 1; rate_No_show_Rate := F 100 |} ≠ NaN.
Proof.
  destruct (day_rate_weekdays one_tuesday) as [Horder Hrows].
  split; [exact Horder|]. split.
  - refine (proj2 (Hrows {| rate_group := "Monday" |} _)).
    vm_compute. left.
  - refine (proj2 (Hrows {| rate_group := "Tuesday" |} _)).
    vm_compute. right. left.
Defined.

(** ** Rates by age group *)

Lemma filter_ext_Forall {A} (P Q : A → Prop) `{∀ x, Decision (P x)} `{∀ x, Decision (Q x)}
    (l : list A) :
  Forall (λ x, P x ↔ Q x) l → filter P l = filter Q l.
Proof.
  induction 1 as [|x l Hx _ IH]; [done|].
  rewrite !filter_cons. destruct (decide (P x)) as [HP|HP].
  - rewrite decide_True by tauto. by f_equal.
  - rewrite decide_False by tauto. done.
Qed.

Lemma omap_ext_Forall {A B} (f g : A → option B) (l : list A) :
  Forall (λ x, f x = g x) l → omap f l = omap g l.
Proof.
  induction 1 as [|x l Hx _ IH]; [done|]. cbn. by rewrite Hx, IH.
Qed.

(** [pd.cut] with the program's bins: the decade that holds the value. *)
Lemma cut_age_bins (v : Z) (iv : Interval) :
  cut age_bins v = Some iv ↔ iv ∈ intervals age_bins ∧ left iv ≤ v < right iv.
Proof.
  cbn [cut age_bins intervals]. split.
  - intros Hcut. repeat case_if; simplify_eq; cbn; (split; [set_solver | lia]).
  - intros [Hin Hv]. rewrite !elem_of_cons, elem_of_nil in Hin.
    destruct_or!; try done; subst iv; cbn in Hv; repeat case_if; try done; lia.
Qed.

Lemma cut_age_bins_None (v : Z) : cut age_bins v = None ↔ v < 0 ∨ 100 ≤ v.
Proof.
  cbn [cut age_bins]. split.
  - intros Hcut. repeat case_if; simplify_eq; lia.
  - intros Hv. repeat case_if; try done; lia.
Qed.

Lemma clean_grouped_by_age (raw : list RawRow) : Forall grouped_by_age (clean raw).
Proof. apply Forall_forall. by intros r (r0 & -> & _)%clean_derive. Qed.

Lemma age_group_rate_buckets (df : list Row) :
  Forall grouped_by_age df →
  age_group_rate df = omap (bucket_row df) (intervals age_bins).
Proof.
  intros Hdf. unfold age_group_rate, age_group_mean.
  rewrite list_fmap_omap. apply omap_ext_Forall, Forall_forall. intros iv Hiv.
  rewrite groupby_lookup. unfold bucket_row.
  rewrite (filter_ext_Forall (λ r, Age_Group r = Some iv) (λ r, left iv ≤ Age r < right iv)).
  - by destruct (filter _ df).
  - eapply Forall_impl; [exact Hdf|]. intros r Hr. cbn beta.
    rewrite Hr, cut_age_bins. tauto.
Qed.

Lemma mean_value (l : list Z) :
  l ≠ [] → ∃ q, fmul (mean l) (of_int 100) = F q ∧ (q == 100 * sum l # Pos.of_nat (length l))%Q.
Proof.
  intros Hl. destruct l as [|z l]; [done|].
  unfold mean, fdiv_int. cbn [length fmul of_int]. eexists. split; [reflexivity|].
  rewrite !Qred_correct. unfold Qeq. cbn [Qnum Qden Qmult inject_Z]. lia.
Qed.

(** C4. Every row of the cleaned table is in the group [lo, hi) of
    [0,10), [10,20), ..., [90,100) that holds its age, a row of age 100
    or more is in no group and the summary is the same without such
    rows; the summary has one row for each group that has rows, whose
    rate is the mean of the no-show flag over those rows times 100. *)
Theorem age_group_rate_by_decade (raw : list RawRow) :
  let df := clean raw in
  intervals age_bins =
    (λ k, {| left := 10 * k; right := 10 * k + 10 |}) <$> [0; 1; 2; 3; 4; 5; 6; 7; 8; 9] ∧
  (∀ r iv, r ∈ df →
     Age_Group r = Some iv ↔ iv ∈ intervals age_bins ∧ left iv ≤ Age r < right iv) ∧
  (∀ r, r ∈ df → 100 ≤ Age r → Age_Group r = None) ∧
  age_group_rate df = age_group_rate (filter (λ r, Age r < 100) df) ∧
  (∀ row, row ∈ age_group_rate df ↔
     ∃ iv, iv ∈ intervals age_bins ∧
       let bucket := filter (λ r, left iv ≤ Age r < right iv) df in
       let m := mean (No_show_flag <$> bucket) in
       bucket ≠ [] ∧
       row = {| rate_group := str_interval iv;
                rate_No_show_flag := m;
                rate_No_show_Rate := fmul m (of_int 100) |} ∧
       ∃ q, rate_No_show_Rate row = F q ∧
            (q == 100 * sum (No_show_flag <$> bucket) # Pos.of_nat (length bucket))%Q).
Proof.
  intros df. pose proof (clean_grouped_by_age raw) as Hdf. fold df in Hdf.
  split; [reflexivity|]. split; [|split; [|split]].
  - intros r iv Hr. rewrite Forall_forall in Hdf. rewrite (Hdf r Hr). apply cut_age_bins.
  - intros r Hr Hage. rewrite Forall_forall in Hdf. rewrite (Hdf r Hr).
    apply cut_age_bins_None. lia.
  - rewrite (age_group_rate_buckets df) by done.
    rewrite age_group_rate_buckets.
    2: { apply Forall_forall. intros r [_ Hr]%list_elem_of_filter.
         rewrite Forall_forall in Hdf. by apply Hdf. }
    apply omap_ext_Forall, Forall_forall. intros iv Hiv. unfold bucket_row.
    rewrite list_filter_filter_l; [done|].
    intros r. cbn [intervals age_bins] in Hiv. rewrite !elem_of_cons, elem_of_nil in Hiv.
    destruct_or!; try done; subst iv; cbn; lia.
  - intros row. rewrite age_group_rate_buckets, list_elem_of_omap by done.
    unfold bucket_row. split.
    + intros (iv & Hiv & Hrow). exists iv. split; [done|]. cbv zeta.
      destruct (filter _ df) as [|r l] eqn:Hf; [done|]. simplify_eq.
      split; [done|]. split; [done|]. cbn [rate_No_show_Rate].
      destruct (mean_value (No_show_flag <$> r :: l)) as (q & Hq & Heq); [done|].
      exists q. split; [done|]. by rewrite length_fmap in Heq.
    + intros (iv & Hiv & Hne & -> & _). exists iv. split; [done|].
      by destruct (filter _ df).
Qed.

Lemma age_group_rate_by_decade_witness :
  Age_Group (derive (sample_row 17 0 0 "No")) = Some {| left := 10; right := 20 |} ∧
  Age_Group (derive (sample_row 100 0 0 "Yes")) = None ∧
  {| rate_group := "[10, 20)"; rate_No_show_flag := F (1 # 2); rate_No_show_Rate := F 50 |}
    ∈ age_group_rate (clean decade_sample).
Proof.
  destruct (age_group_rate_by_decade decade_sample) as (_ & Hgroup & Hnone & _ & Hrows).
  split; [|split].
  - refine (proj2 (Hgroup (derive (sample_row 17 0 0 "No")) _ _) _).
    + vm_compute. right. left.
    + split; [vm_compute; right; left | cbn; lia].
  - apply Hnone.
    + vm_compute. do 3 right. left.
    + cbn. lia.
  - apply Hrows. exists {| left := 10; right := 20 |}.
    split; [vm_compute; right; left|]. cbv zeta.
    split; [vm_compute; discriminate|].
    split; [vm_compute; reflexivity|].
    exists 50%Q. split; vm_compute; reflexivity.
Defined.

(** ** Chart callbacks *)

Lemma assoc_frame_of_df (df : list Row) (name : string) :
  assoc name (frame_of_df df) =
    match assoc name df_columns with
    | Some cell => Some (cell <$> df)
    | None => None
    end.
Proof.
  unfold frame_of_df.
  induction df_columns as [|[n cell] cols IH]; [done|].
  cbn [fmap list_fmap assoc fst snd]. destruct (decide (n = name)); [done|]. exact IH.
Qed.

Lemma column_frame_of_df (df : list Row) (arg name : string) :
  column (frame_of_df df) arg name =
    match assoc name df_columns with
    | Some cell => Ok (name, cell <$> df)
    | None => Err (unknown_column (frame_of_df df) arg name)
    end.
Proof.
  unfold column. rewrite assoc_frame_of_df. by destruct (assoc name df_columns).
Qed.

(** Every value of the dropdown names a column of [df]. *)
Lemma dropdown_values_columns (feature : string) :
  feature ∈ dropdown_values → ∃ cell, assoc feature df_columns = Some cell.
Proof.
  unfold dropdown_values. cbn [fmap list_fmap dropdown_options snd].
  rewrite !elem_of_cons, elem_of_nil.
  intros H; destruct_or!; try done; subst feature; eexists; reflexivity.
Qed.

Lemma lookup_barmode_dark (m : gmap string Attr) :
  update dark m !! "barmode" = m !! "barmode".
Proof. unfold update, dark. cbn [foldl fst snd]. by rewrite !lookup_insert_ne. Qed.

Lemma update_main_graph_Ok (g : Globals) (feature : string) (cell : Row → Value) :
  assoc feature df_columns = Some cell →
  ∃ fig, update_main_graph g feature = Ok fig ∧
    fig_kind fig = Histogram ∧
    fig_x fig = Some (feature, cell <$> df g) ∧
    fig_color fig = Some ("No-show", (λ r, VStr (No_show r)) <$> df g) ∧
    fig_nbins fig = (if decide (feature ∈ ["Age"; "WaitingDays"]) then Some 50 else None) ∧
    fig_layout fig !! "barmode" =
      Some (AStr (if decide (feature ∈ ["Age"; "WaitingDays"]) then "relative" else "group")).
Proof.
  intros Hcell. unfold update_main_graph, px_histogram.
  rewrite !column_frame_of_df, Hcell.
  change (assoc "No-show" df_columns) with (Some (λ r, VStr (No_show r))).
  destruct (decide (feature ∈ ["Age"; "WaitingDays"])); cbn [mbind result_bind mret result_ret];
    (eexists; split; [reflexivity|]);
    cbn [fig_kind fig_x fig_color fig_nbins fig_layout update_yaxes update_xaxes update_layout];
    rewrite lookup_barmode_dark, lookup_insert_eq; done.
Qed.

(** C2, as stated, fails: for "Age" the figure has 50 bins and the bar
    mode 'relative' (the bars of the two outcomes are stacked), not the
    bar mode 'overlay'. *)
Lemma main_graph_age_not_overlaid :
  ∃ fig, update_main_graph (load decade_sample) "Age" = Ok fig ∧
    fig_nbins fig = Some 50 ∧
    fig_layout fig !! "barmode" = Some (AStr "relative") ∧
    fig_layout fig !! "barmode" ≠ Some (AStr "overlay").
Proof.
  destruct (update_main_graph_Ok (load decade_sample) "Age" (λ r, VInt (Age r)) eq_refl)
    as (fig & Hfig & _ & _ & _ & Hbins & Hmode).
  exists fig. rewrite Hmode, Hbins. done.
Qed.

(** C2, amended. For every value of the dropdown the main callback
    returns a histogram of that column colored by the outcome column
    'No-show': with 50 bins and the library's default bar mode
    'relative' for "Age" and "WaitingDays", without a bin count and with
    bar mode 'group' for every other value. *)
Theorem main_graph_by_feature (g : Globals) (feature : string) :
  feature ∈ dropdown_values →
  ∃ fig, update_main_graph g feature = Ok fig ∧
    fig_kind fig = Histogram ∧
    fst <$> fig_x fig = Some feature ∧
    fst <$> fig_color fig = Some "No-show" ∧
    if decide (feature = "Age" ∨ feature = "WaitingDays") then
      fig_nbins fig = Some 50 ∧ fig_layout fig !! "barmode" = Some (AStr "relative")
    else
      fig_nbins fig = None ∧ fig_layout fig !! "barmode" = Some (AStr "group").
Proof.
  intros [cell Hcell]%dropdown_values_columns.
  destruct (update_main_graph_Ok g feature cell Hcell)
    as (fig & Hfig & Hkind & Hx & Hcolor & Hbins & Hmode).
  exists fig. rewrite Hx, Hcolor, Hbins, Hmode.
  do 4 (split; [done|]).
  assert (feature ∈ ["Age"; "WaitingDays"] ↔ feature = "Age" ∨ feature = "WaitingDays")
    as Hiff by (rewrite !elem_of_cons, elem_of_nil; tauto).
  destruct (decide (feature = "Age" ∨ feature = "WaitingDays")) as [Hf|Hf].
  - rewrite !decide_True by tauto. done.
  - rewrite !decide_False by tauto. done.
Qed.

Lemma main_graph_by_feature_witness :
  ∃ fig, update_main_graph (load decade_sample) "Gender" = Ok fig ∧
    fig_kind fig = Histogram ∧
    fst <$> fig_x fig = Some "Gender" ∧
    fst <$> fig_color fig = Some "No-show" ∧
    fig_nbins fig = None ∧ fig_layout fig !! "barmode" = Some (AStr "group").
Proof.
  apply (main_graph_by_feature (load decade_sample) "Gender").
  vm_compute. right. left.
Defined.

(** ** Frames and figures in closed form *)

Lemma sum_Permutation (l l' : list Z) : l ≡ₚ l' → sum l = sum l'.
Proof.
  induction 1 as [|x l l' _ IH|x y l|l l' l'' _ IH1 _ IH2]; cbn [sum foldr] in *;
    [done | fold (sum l); fold (sum l'); lia | lia | congruence].
Qed.

Lemma total_size_insert {K} `{Countable K} (sizes : gmap K nat) (k : K) (n : nat) :
  total_size (<[k := n]> sizes) = Z.of_nat n + total_size (delete k sizes).
Proof.
  unfold total_size. rewrite <- insert_delete_eq.
  rewrite (sum_Permutation _ ((λ e, Z.of_nat e.2) <$> (k, n) :: map_to_list (delete k sizes))).
  - done.
  - apply fmap_Permutation, map_to_list_insert, lookup_delete_eq.
Qed.

Lemma total_size_delete {K} `{Countable K} (sizes : gmap K nat) (k : K) :
  total_size sizes = Z.of_nat (default 0%nat (sizes !! k)) + total_size (delete k sizes).
Proof.
  destruct (sizes !! k) as [n|] eqn:Hk; cbn [default].
  - rewrite <- (insert_delete_id sizes k n Hk) at 1. rewrite total_size_insert.
    by rewrite delete_delete_eq.
  - by rewrite delete_id.
Qed.

Lemma groupby_total_size {R A K} `{Countable K} (f : R → K) (val : R → A) (rows : list R) :
  total_size (length <$> groupby (λ r, Some (f r)) val rows) = Z.of_nat (length rows).
Proof.
  induction rows as [|r rows IH]; [done|].
  cbn [groupby foldr]. fold (groupby (λ r, Some (f r)) val rows).
  rewrite fmap_insert, total_size_insert. cbn [length].
  rewrite (total_size_delete _ (f r)) in IH. rewrite lookup_fmap in IH.
  destruct (groupby _ val rows !! f r); cbn [default fmap option_fmap option_map length] in *;
    unfold id in *; lia.
Qed.

Lemma key_le_total : Total key_le.
Proof.
  intros [a m] [b n]. unfold key_le, String.ltb. cbn [fst snd].
  destruct (String.compare a b) eqn:Hab.
  - apply String.compare_eq_iff in Hab as ->. destruct (decide (m ≤ n)); [left|right]; right;
      (split; [done | lia]).
  - by left; left.
  - right. left. by rewrite String.compare_antisym, Hab.
Qed.

(** The frame of a two-column group-by in closed form. *)
Lemma group_sizes_bars (label : string) (by_col : Row → string) (df : list Row) :
  ∃ bars : list (string * Z * nat),
    group_sizes label by_col df =
      [ (label, (λ e, VStr e.1.1) <$> bars);
        ("No-show_flag", (λ e, VInt e.1.2) <$> bars);
        ("count", (λ e, VInt (Z.of_nat e.2)) <$> bars) ] ∧
    Sorted (λ a b, key_le a.1 b.1) bars ∧
    NoDup bars.*1 ∧
    (∀ k n, (k, n) ∈ bars ↔
       (0 < n)%nat ∧
       n = length (filter (λ r, by_col r = k.1 ∧ No_show_flag r = k.2) df)) ∧
    sum ((λ e, Z.of_nat e.2) <$> bars) = Z.of_nat (length df).
Proof.
  set (sizes := length <$> groupby (λ r, Some (by_col r, No_show_flag r)) id df
       : gmap (string * Z) nat).
  set (bars := merge_sort (λ a b, key_le a.1 b.1) (map_to_list sizes)).
  assert (bars ≡ₚ map_to_list sizes) as Hperm by apply merge_sort_Permutation.
  exists bars. split; [reflexivity|]. split; [|split; [|split]].
  - apply Sorted_merge_sort. intros a b. apply key_le_total.
  - rewrite Hperm. apply NoDup_fst_map_to_list.
  - intros k n. rewrite Hperm, elem_of_map_to_list. unfold sizes.
    rewrite lookup_fmap, groupby_lookup, list_fmap_id.
    rewrite (list_filter_iff _ (λ r, by_col r = k.1 ∧ No_show_flag r = k.2)).
    2: { intros r. destruct k as [a b]. cbn [fst snd]. split; [by intros [= -> ->] | by intros [-> ->]]. }
    destruct (filter _ df) as [|r l]; cbn [fmap option_fmap option_map length].
    + split; [done | lia].
    + split; [intros [= <-]; split; [lia | done] | by intros [_ ->]].
  - rewrite (sum_Permutation _ _ (fmap_Permutation _ _ _ Hperm)).
    apply (groupby_total_size (λ r, (by_col r, No_show_flag r)) id df).
Qed.

Lemma px_bar_group_sizes (label : string) (by_col : Row → string) (df : list Row)
    barmode cdm cds title (fig : Figure) :
  label ≠ "No-show_flag" → label ≠ "count" →
  px_bar (group_sizes label by_col df) label "count" (Some "No-show_flag")
    barmode cdm cds title = Ok fig →
  ∃ xs cs ys,
    group_sizes label by_col df = [ (label, xs); ("No-show_flag", cs); ("count", ys) ] ∧
    fig_x fig = Some (label, xs) ∧ fig_color fig = Some ("No-show_flag", cs) ∧
    fig_y fig = Some ("count", ys).
Proof.
  intros Hl1 Hl2.
  destruct (group_sizes_bars label by_col df) as (bars & -> & _).
  unfold px_bar, column. cbn [assoc].
  rewrite (decide_True (P := label = label)) by done.
  rewrite (decide_False (P := label = "count")) by done.
  rewrite (decide_False (P := label = "No-show_flag")) by done.
  rewrite (decide_False (P := "No-show_flag" = "count")) by done.
  rewrite (decide_True (P := "count" = "count")) by done.
  rewrite (decide_True (P := "No-show_flag" = "No-show_flag")) by done.
  intros [= <-]. by eexists _, _, _.
Qed.

Lemma px_bar_frame_of_rates (index : string) (t : list RateRow) barmode cdm cds title :
  index ≠ "No-show Rate (%)" →
  ∃ fig,
    px_bar (frame_of_rates index t) index "No-show Rate (%)" None barmode cdm cds title
      = Ok fig ∧
    fig_kind fig = Bar ∧
    fig_x fig = Some (index, (λ r, VStr (rate_group r)) <$> t) ∧
    fig_y fig = Some ("No-show Rate (%)", (λ r, VFloat (rate_No_show_Rate r)) <$> t) ∧
    fig_color fig = None ∧ fig_color_discrete_sequence fig = cds.
Proof.
  intros Hindex. unfold px_bar, column, frame_of_rates. cbn [assoc].
  rewrite (decide_True (P := index = index)) by done.
  rewrite (decide_False (P := index = "No-show Rate (%)")) by done.
  rewrite (decide_False (P := "No-show_flag" = "No-show Rate (%)")) by done.
  rewrite (decide_True (P := "No-show Rate (%)" = "No-show Rate (%)")) by done.
  eexists. split; [reflexivity|]. done.
Qed.

Lemma px_bar_kind data x y color barmode cdm cds title fig :
  px_bar data x y color barmode cdm cds title = Ok fig →
  fig_kind fig = Bar ∧ fig_names fig = None.
Proof.
  unfold px_bar, column.
  destruct (assoc x data); [|done]. destruct (assoc y data); [|done].
  destruct color as [c|]; [destruct (assoc c data); [|done]|]; by intros [= <-].
Qed.

(** ** Figures as JSON *)

Lemma serializable_fmap {A} (f : A → Value) (l : list A) :
  (∀ a, serializable (f a) = true) → forallb serializable (f <$> l) = true.
Proof.
  intros Hf. induction l as [|a l IH]; [done|]. cbn. by rewrite Hf, IH.
Qed.

Lemma respond_same (output : string) (answer : result Figure) :
  (∀ fig, answer = Ok fig → forallb serializable (fig_cells fig) = true) →
  respond output answer = answer.
Proof.
  intros Hcells. destruct answer as [fig|e]; [|done].
  unfold respond, to_json. cbn [mbind result_bind]. by rewrite Hcells.
Qed.

(** Every column of [df] but 'Age_Group' has cells that can be written
    as JSON. *)
Lemma df_column_serializable (v : string) (cell : Row → Value) :
  assoc v df_columns = Some cell → v ≠ "Age_Group" → ∀ r, serializable (cell r) = true.
Proof.
  unfold df_columns. cbn [assoc].
  repeat (case_decide; [by intros [= <-]|]).
  discriminate.
Qed.

Lemma update_main_graph_cells (g : Globals) (v : string) (cell : Row → Value) (fig : Figure) :
  assoc v df_columns = Some cell →
  update_main_graph g v = Ok fig →
  fig_cells fig = ((cell <$> df g) ++ ((λ r, VStr (No_show r)) <$> df g))%list.
Proof.
  intros Hcell. unfold update_main_graph, px_histogram.
  rewrite !column_frame_of_df, Hcell.
  change (assoc "No-show" df_columns) with (Some (λ r, VStr (No_show r))).
  destruct (decide _); intros [= <-]; reflexivity.
Qed.

Lemma respond_main_graph (output : string) (g : Globals) (v : string) :
  v ≠ "Age_Group" →
  respond output (update_main_graph g v) = update_main_graph g v.
Proof.
  intros Hv. apply respond_same. intros fig Hfig.
  destruct (assoc v df_columns) as [cell|] eqn:Hcell.
  - rewrite (update_main_graph_cells g v cell fig Hcell Hfig), forallb_app.
    rewrite !serializable_fmap; [done..|].
    by apply (df_column_serializable v).
  - revert Hfig. unfold update_main_graph, px_histogram.
    rewrite !column_frame_of_df, Hcell. by destruct (decide _).
Qed.

Lemma respond_target_graph (output : string) (g : Globals) (v : string) :
  respond output (update_target_graph g v) = update_target_graph g v.
Proof.
  apply respond_same. intros fig. unfold update_target_graph, px_pie.
  rewrite !column_frame_of_df.
  change (assoc "No-show" df_columns) with (Some (λ r, VStr (No_show r))).
  intros [= <-]. cbn. rewrite forallb_app. by rewrite !serializable_fmap.
Qed.

Lemma respond_waiting_by_day (output : string) (g : Globals) (v : string) :
  respond output (update_waiting_by_day g v) = update_waiting_by_day g v.
Proof.
  apply respond_same. intros fig. unfold update_waiting_by_day, px_box.
  rewrite !column_frame_of_df.
  change (assoc "No-show" df_columns) with (Some (λ r, VStr (No_show r))).
  change (assoc "AppointmentDayOfWeek" df_columns)
    with (Some (λ r, VStr (AppointmentDayOfWeek r))).
  change (assoc "WaitingDays" df_columns) with (Some (λ r, VInt (WaitingDays r))).
  intros [= <-]. cbn. rewrite !forallb_app. by rewrite !serializable_fmap.
Qed.

Lemma impact_serializable (label : string) (by_col : Row → string) (df : list Row)
    barmode cdm cds title (f : Figure) :
  label ≠ "No-show_flag" → label ≠ "count" →
  px_bar (group_sizes label by_col df) label "count" (Some "No-show_flag")
    barmode cdm cds title = Ok f →
  forallb serializable (fig_cells f) = true.
Proof.
  intros Hl1 Hl2 Hf.
  destruct (px_bar_kind _ _ _ _ _ _ _ _ _ Hf) as [_ Hnames].
  destruct (group_sizes_bars label by_col df) as (bars & Hframe & _).
  apply px_bar_group_sizes in Hf as (xs & cs & ys & Hframe' & Hx & Hc & Hy); [|done..].
  rewrite Hframe in Hframe'. injection Hframe' as <- <- <-.
  unfold fig_cells. rewrite Hx, Hc, Hy, Hnames. cbn [cells_of].
  rewrite !forallb_app. by rewrite !serializable_fmap.
Qed.

Lemma respond_gender_graph (output : string) (g : Globals) (v : string) :
  respond output (update_gender_graph g v) = update_gender_graph g v.
Proof.
  apply respond_same. intros fig. unfold update_gender_graph.
  destruct (px_bar _ _ _ _ _ _ _ _) as [f|] eqn:Hf; [|done]. intros [= <-].
  by apply impact_serializable in Hf.
Qed.

Lemma respond_sms_graph (output : string) (g : Globals) (v : string) :
  respond output (update_sms_graph g v) = update_sms_graph g v.
Proof.
  apply respond_same. intros fig. unfold update_sms_graph.
  destruct (px_bar _ _ _ _ _ _ _ _) as [f|] eqn:Hf; [|done]. intros [= <-].
  by apply impact_serializable in Hf.
Qed.

Lemma rate_serializable (index : string) (t : list RateRow) barmode cdm cds title
    (f : Figure) :
  index ≠ "No-show Rate (%)" →
  px_bar (frame_of_rates index t) index "No-show Rate (%)" None barmode cdm cds title = Ok f →
  forallb serializable (fig_cells f) = true.
Proof.
  intros Hindex Hf.
  destruct (px_bar_kind _ _ _ _ _ _ _ _ _ Hf) as [_ Hnames].
  destruct (px_bar_frame_of_rates index t barmode cdm cds title Hindex)
    as (f' & Hf' & _ & Hx & Hy & Hc & _).
  rewrite Hf in Hf'. injection Hf' as <-.
  unfold fig_cells. rewrite Hx, Hy, Hc, Hnames. cbn [cells_of].
  rewrite !forallb_app. by rewrite !serializable_fmap.
Qed.

Lemma respond_age_rate_graph (output : string) (g : Globals) (v : string) :
  respond output (update_age_rate_graph g v) = update_age_rate_graph g v.
Proof.
  apply respond_same. intros fig. unfold update_age_rate_graph.
  destruct (px_bar _ _ _ _ _ _ _ _) as [f|] eqn:Hf; [|done]. intros [= <-].
  by apply rate_serializable in Hf.
Qed.

Lemma respond_day_rate_graph (output : string) (g : Globals) (v : string) :
  respond output (update_day_rate_graph g v) = update_day_rate_graph g v.
Proof.
  apply respond_same. intros fig. unfold update_day_rate_graph.
  destruct (px_bar _ _ _ _ _ _ _ _) as [f|] eqn:Hf; [|done]. intros [= <-].
  by apply rate_serializable in Hf.
Qed.

(** One event in terms of the callbacks' own answers, when the value is
    not 'Age_Group'. *)
Lemma on_change_plain (v : string) (st : State) :
  v ≠ "Age_Group" →
  on_change v st =
    let g := globals st in
    {| globals := g;
       cards := cards st;
       dropdown := v;
       charts :=
         {| main_graph := publish (update_main_graph g v) (main_graph (charts st));
            target_distribution :=
              publish (update_target_graph g v) (target_distribution (charts st));
            gender_impact_graph :=
              publish (update_gender_graph g v) (gender_impact_graph (charts st));
            sms_impact_graph := publish (update_sms_graph g v) (sms_impact_graph (charts st));
            waitingdays_by_day :=
              publish (update_waiting_by_day g v) (waitingdays_by_day (charts st));
            age_group_rate_graph :=
              publish (update_age_rate_graph g v) (age_group_rate_graph (charts st));
            day_of_week_rate_graph :=
              publish (update_day_rate_graph g v) (day_of_week_rate_graph (charts st)) |};
       errors := (errors st ++ raised (update_main_graph g v)
                   ++ raised (update_target_graph g v) ++ raised (update_gender_graph g v)
                   ++ raised (update_sms_graph g v) ++ raised (update_waiting_by_day g v)
                   ++ raised (update_age_rate_graph g v)
                   ++ raised (update_day_rate_graph g v))%list |}.
Proof.
  intros Hv. unfold on_change. cbv zeta.
  by rewrite respond_main_graph, respond_target_graph, respond_gender_graph,
    respond_sms_graph, respond_waiting_by_day, respond_age_rate_graph,
    respond_day_rate_graph.
Qed.

Lemma dropdown_values_not_Age_Group (v : string) : v ∈ dropdown_values → v ≠ "Age_Group".
Proof. intros Hv ->. revert Hv. compute_done. Qed.

(** ** Totality of the callbacks *)

Lemma update_target_graph_Ok (g : Globals) (v : string) : succeeds (update_target_graph g v).
Proof.
  unfold update_target_graph, px_pie. rewrite !column_frame_of_df.
  eexists. reflexivity.
Qed.

Lemma update_gender_graph_Ok (g : Globals) (v : string) : succeeds (update_gender_graph g v).
Proof. eexists. reflexivity. Qed.

Lemma update_sms_graph_Ok (g : Globals) (v : string) : succeeds (update_sms_graph g v).
Proof. eexists. reflexivity. Qed.

Lemma update_waiting_by_day_Ok (g : Globals) (v : string) :
  succeeds (update_waiting_by_day g v).
Proof.
  unfold update_waiting_by_day, px_box. rewrite !column_frame_of_df.
  eexists. reflexivity.
Qed.

Lemma update_age_rate_graph_Ok (g : Globals) (v : string) :
  succeeds (update_age_rate_graph g v).
Proof. eexists. reflexivity. Qed.

Lemma update_day_rate_graph_Ok (g : Globals) (v : string) :
  succeeds (update_day_rate_graph g v).
Proof. eexists. reflexivity. Qed.

Lemma update_main_graph_dropdown (g : Globals) (v : string) :
  v ∈ dropdown_values → succeeds (update_main_graph g v).
Proof.
  intros [cell Hcell]%dropdown_values_columns.
  destruct (update_main_graph_Ok g v cell Hcell) as (fig & Hfig & _). by exists fig.
Qed.

Lemma raised_succeeds (answer : result Figure) : succeeds answer → raised answer = [].
Proof. by intros [fig ->]. Qed.

Lemma on_change_errors (v : string) (st : State) :
  v ∈ dropdown_values → errors (on_change v st) = errors st.
Proof.
  intros Hv. rewrite on_change_plain by by apply dropdown_values_not_Age_Group.
  cbn [errors].
  rewrite (raised_succeeds _ (update_main_graph_dropdown (globals st) v Hv)).
  rewrite (raised_succeeds _ (update_target_graph_Ok (globals st) v)).
  rewrite (raised_succeeds _ (update_gender_graph_Ok (globals st) v)).
  rewrite (raised_succeeds _ (update_sms_graph_Ok (globals st) v)).
  rewrite (raised_succeeds _ (update_waiting_by_day_Ok (globals st) v)).
  rewrite (raised_succeeds _ (update_age_rate_graph_Ok (globals st) v)).
  rewrite (raised_succeeds _ (update_day_rate_graph_Ok (globals st) v)).
  by rewrite !app_nil_r.
Qed.

Lemma run_errors (events : list string) (st : State) :
  Forall (λ v, v ∈ dropdown_values) events → errors (run events st) = errors st.
Proof.
  intros Hev. revert st. induction Hev as [|v events Hv _ IH]; intros st; [done|].
  cbn [run foldl]. fold (run events (on_change v st)).
  by rewrite IH, on_change_errors.
Qed.

(** C9. With the table cleaned, each of the seven callbacks returns a
    figure for every value of the dropdown, and a page that has received
    any sequence of dropdown values has logged no raised exception. *)
Theorem callbacks_never_raise (raw : list RawRow) (c : Cards) (feature : string)
    (events : list string) :
  feature ∈ dropdown_values →
  Forall (λ v, v ∈ dropdown_values) events →
  let g := load raw in
  succeeds (update_main_graph g feature) ∧
  succeeds (update_target_graph g feature) ∧
  succeeds (update_gender_graph g feature) ∧
  succeeds (update_sms_graph g feature) ∧
  succeeds (update_waiting_by_day g feature) ∧
  succeeds (update_age_rate_graph g feature) ∧
  succeeds (update_day_rate_graph g feature) ∧
  errors (run events (page_load (initial g c))) = [].
Proof.
  intros Hf Hev g.
  split; [by apply update_main_graph_dropdown|].
  split; [apply update_target_graph_Ok|].
  split; [apply update_gender_graph_Ok|].
  split; [apply update_sms_graph_Ok|].
  split; [apply update_waiting_by_day_Ok|].
  split; [apply update_age_rate_graph_Ok|].
  split; [apply update_day_rate_graph_Ok|].
  rewrite run_errors by done. unfold page_load.
  rewrite on_change_errors; [done|]. cbn. left.
Qed.

Lemma callbacks_never_raise_witness :
  let g := load decade_sample in
  succeeds (update_main_graph g "WaitingDays") ∧
  succeeds (update_target_graph g "WaitingDays") ∧
  succeeds (update_gender_graph g "WaitingDays") ∧
  succeeds (update_sms_graph g "WaitingDays") ∧
  succeeds (update_waiting_by_day g "WaitingDays") ∧
  succeeds (update_age_rate_graph g "WaitingDays") ∧
  succeeds (update_day_rate_graph g "WaitingDays") ∧
  errors (run ["Gender"; "SMS_received"; "Age"] (page_load (initial g sample_cards))) = [].
Proof.
  apply (callbacks_never_raise decade_sample sample_cards "WaitingDays").
  - in_list.
  - repeat (constructor; [in_list|]). constructor.
Defined.

(** ** The charts that ignore the dropdown *)

Lemma publish_again (answer : result Figure) (shown : option Figure) :
  publish answer (publish answer shown) = publish answer shown.
Proof. by destruct answer. Qed.

Lemma independent_charts_on_change (v w : string) (st : State) :
  independent_charts (on_change w (on_change v st)) = independent_charts (on_change v st).
Proof.
  unfold independent_charts, on_change.
  cbn [charts globals target_distribution gender_impact_graph sms_impact_graph
       waitingdays_by_day age_group_rate_graph day_of_week_rate_graph].
  unfold update_target_graph, update_gender_graph, update_sms_graph,
    update_waiting_by_day, update_age_rate_graph, update_day_rate_graph.
  by rewrite !publish_again.
Qed.

(** C1. The pie chart, the gender bar chart, the SMS bar chart, the box
    plot and the two rate bar charts are the same for any two values of
    the dropdown; and the page shows the same six figures when it loads
    with "Age", after the change to "Gender", and after the change back
    to "Age". *)
Theorem independent_charts_ignore_dropdown (g : Globals) (c : Cards) (v1 v2 : string) :
  update_target_graph g v1 = update_target_graph g v2 ∧
  update_gender_graph g v1 = update_gender_graph g v2 ∧
  update_sms_graph g v1 = update_sms_graph g v2 ∧
  update_waiting_by_day g v1 = update_waiting_by_day g v2 ∧
  update_age_rate_graph g v1 = update_age_rate_graph g v2 ∧
  update_day_rate_graph g v1 = update_day_rate_graph g v2 ∧
  let s1 := page_load (initial g c) in
  let s2 := on_change "Gender" s1 in
  let s3 := on_change "Age" s2 in
  (dropdown s1, dropdown s2, dropdown s3) = ("Age", "Gender", "Age") ∧
  (∃ pie gender sms box ages days,
     independent_charts s1 = (Some pie, Some gender, Some sms, Some box, Some ages, Some days)) ∧
  independent_charts s2 = independent_charts s1 ∧
  independent_charts s3 = independent_charts s1.
Proof.
  do 6 (split; [reflexivity|]). intros s1 s2 s3.
  split; [reflexivity|]. split.
  { destruct (update_target_graph_Ok g "Age") as [pie Hpie].
    destruct (update_gender_graph_Ok g "Age") as [gender Hgender].
    destruct (update_sms_graph_Ok g "Age") as [sms Hsms].
    destruct (update_waiting_by_day_Ok g "Age") as [box Hbox].
    destruct (update_age_rate_graph_Ok g "Age") as [ages Hages].
    destruct (update_day_rate_graph_Ok g "Age") as [days Hdays].
    exists pie, gender, sms, box, ages, days.
    unfold s1, page_load, independent_charts. rewrite on_change_plain by done.
    cbn [charts globals dropdown initial target_distribution gender_impact_graph
         sms_impact_graph waitingdays_by_day age_group_rate_graph day_of_week_rate_graph].
    unfold dropdown_initial.
    by rewrite Hpie, Hgender, Hsms, Hbox, Hages, Hdays. }
  assert (independent_charts s2 = independent_charts s1) as H12
    by apply independent_charts_on_change.
  split; [exact H12|]. rewrite <- H12. apply independent_charts_on_change.
Qed.

(** ** Colors of the outcome *)

Lemma assoc_None {V} (k : string) (l : list (string * V)) :
  assoc k l = None ↔ k ∉ l.*1.
Proof.
  induction l as [|[k' v] l IH]; cbn [assoc fmap list_fmap fst].
  - split; [intros _; apply not_elem_of_nil | done].
  - destruct (decide (k' = k)) as [->|Hne].
    + split; [done|]. intros Hk. exfalso. apply Hk. left.
    + rewrite IH, not_elem_of_cons. split; [by split | by intros [_ ?]].
Qed.

Lemma is_continuous_fmap {A} (f : A → Value) (l : list A) :
  (∀ a, numeric (f a) = true) → is_continuous (f <$> l) = true.
Proof.
  intros Hf. unfold is_continuous.
  induction l as [|a l IH]; [done|]. cbn. by rewrite Hf, IH.
Qed.

Lemma elem_of_unique (c : Value) (cells : list Value) : c ∈ unique cells ↔ c ∈ cells.
Proof. unfold unique. by rewrite elem_of_reverse, elem_of_remove_dups, elem_of_reverse. Qed.

(** The color of a value of a discrete color column is the one the
    call's map gives it, if the value occurs in the column. *)
Lemma assoc_discrete_colors (cells : list Value) (cdm : list (Value * string)) (c : Value) :
  assoc c (discrete_colors cells cdm) = if decide (c ∈ cells) then assoc c cdm else None.
Proof.
  unfold discrete_colors.
  assert (∀ l : list Value,
    assoc c (omap (λ c', match assoc c' cdm with
                         | Some col => Some (c', col)
                         | None => None
                         end) l) = if decide (c ∈ l) then assoc c cdm else None) as Hl.
  { induction l as [|a l IH]; [done|]. cbn [omap list_omap].
    destruct (assoc a cdm) as [col|] eqn:Ha; cbn [assoc].
    - destruct (decide (a = c)) as [->|Hne].
      + rewrite decide_True by left. done.
      + rewrite IH. destruct (decide (c ∈ l)) as [Hc|Hc].
        * rewrite decide_True by (by right). done.
        * rewrite decide_False; [done|]. rewrite elem_of_cons. by intros [->|?].
    - rewrite IH. destruct (decide (c ∈ l)) as [Hc|Hc].
      + rewrite decide_True by (by right). done.
      + destruct (decide (c ∈ a :: l)) as [Hc'|Hc']; [|done].
        apply elem_of_cons in Hc' as [->|Hc']; [by symmetry | done]. }
  rewrite Hl. destruct (decide (c ∈ unique cells)) as [Hc|Hc].
  - rewrite decide_True; [done|]. by apply elem_of_unique.
  - rewrite decide_False; [done|]. by rewrite <- elem_of_unique.
Qed.

(** The colors of the two outcomes in a figure whose color column is
    the column 'No-show'. *)
Lemma label_colors (rows : list Row) (fig : Figure) :
  fig_discrete_colors fig =
    discrete_colors ((λ r, VStr (No_show r)) <$> rows)
      [(VStr "Yes", NO_SHOW_COLOR); (VStr "No", SHOW_COLOR)] →
  colors_of fig (VStr "Yes") (VStr "No") =
    (if decide (Exists (λ r, No_show r = "Yes") rows) then Some "#FF9500" else None,
     if decide (Exists (λ r, No_show r = "No") rows) then Some "#007AFF" else None).
Proof.
  intros Hfig. unfold colors_of, mapped_color. rewrite Hfig, !assoc_discrete_colors.
  assert (∀ o, VStr o ∈ (λ r, VStr (No_show r)) <$> rows ↔ Exists (λ r, No_show r = o) rows)
    as Hin.
  { intros o. rewrite list_elem_of_fmap, Exists_exists.
    split; [intros (r & [= ->] & Hr); by exists r | intros (r & Hr & <-); by exists r]. }
  f_equal.
  - destruct (decide (Exists _ rows)) as [He|He].
    + rewrite decide_True by (by apply Hin). done.
    + rewrite decide_False; [done|]. by rewrite Hin.
  - destruct (decide (Exists _ rows)) as [He|He].
    + rewrite decide_True by (by apply Hin). done.
    + rewrite decide_False; [done|]. by rewrite Hin.
Qed.

(** A bar chart of counts colored by the flag has a continuous color
    axis and no discrete color. *)
Lemma px_bar_flag_axis (label : string) (by_col : Row → string) (df : list Row)
    barmode cdm cds title (fig : Figure) :
  label ≠ "No-show_flag" → label ≠ "count" →
  px_bar (group_sizes label by_col df) label "count" (Some "No-show_flag")
    barmode cdm cds title = Ok fig →
  fst <$> fig_color fig = Some "No-show_flag" ∧
  fig_coloraxis fig = true ∧ fig_discrete_colors fig = [].
Proof.
  intros Hl1 Hl2.
  destruct (group_sizes_bars label by_col df) as (bars & -> & _).
  unfold px_bar, column. cbn [assoc].
  rewrite (decide_True (P := label = label)) by done.
  rewrite (decide_False (P := label = "count")) by done.
  rewrite (decide_False (P := label = "No-show_flag")) by done.
  rewrite (decide_False (P := "No-show_flag" = "count")) by done.
  rewrite (decide_True (P := "count" = "count")) by done.
  rewrite (decide_True (P := "No-show_flag" = "No-show_flag")) by done.
  intros [= <-]. cbn [fig_color fig_coloraxis fig_discrete_colors snd fmap option_fmap option_map].
  by rewrite is_continuous_fmap.
Qed.

(** C8. The claim fails for the two charts keyed by the 0/1 flag. The
    pie chart, the box plot and the main chart are colored by the
    column 'No-show', a discrete color column, and draw every "Yes" in
    '#FF9500' and every "No" in '#007AFF'. The gender and the SMS bar
    charts are colored by the integer column 'No-show_flag': for every
    table the charting library puts it on a continuous color axis and
    does not use the map the call passes, so neither the flag 1 nor the
    flag 0 is drawn in its color, also when both occur in the chart. *)
Theorem outcome_colors_by_label_only (raw : list RawRow) (v : string) :
  let g := load raw in
  let by_label :=
    (if decide (Exists (λ r, No_show r = "Yes") (df g)) then Some "#FF9500" else None,
     if decide (Exists (λ r, No_show r = "No") (df g)) then Some "#007AFF" else None) in
  (∃ fig, update_target_graph g v = Ok fig ∧
     fst <$> fig_color fig = Some "No-show" ∧ fig_coloraxis fig = false ∧
     colors_of fig (VStr "Yes") (VStr "No") = by_label) ∧
  (∃ fig, update_waiting_by_day g v = Ok fig ∧
     fst <$> fig_color fig = Some "No-show" ∧ fig_coloraxis fig = false ∧
     colors_of fig (VStr "Yes") (VStr "No") = by_label) ∧
  match update_main_graph g v with
  | Ok fig =>
      fst <$> fig_color fig = Some "No-show" ∧ fig_coloraxis fig = false ∧
      colors_of fig (VStr "Yes") (VStr "No") = by_label
  | Err _ => v ∉ df_columns.*1
  end ∧
  (∃ fig, update_gender_graph g v = Ok fig ∧
     fst <$> fig_color fig = Some "No-show_flag" ∧ fig_coloraxis fig = true ∧
     colors_of fig (VInt 1) (VInt 0) = (None, None)) ∧
  (∃ fig, update_sms_graph g v = Ok fig ∧
     fst <$> fig_color fig = Some "No-show_flag" ∧ fig_coloraxis fig = true ∧
     colors_of fig (VInt 1) (VInt 0) = (None, None)) ∧
  (fig ← update_gender_graph (load mixed_sample) v; mret (fig_x fig, fig_color fig)) =
    Ok (Some ("Gender", [VStr "F"; VStr "F"; VStr "M"; VStr "M"]),
        Some ("No-show_flag", [VInt 0; VInt 1; VInt 0; VInt 1])).
Proof.
  intros g by_label.
  split; [|split; [|split; [|split; [|split]]]].
  - unfold update_target_graph, px_pie. rewrite !column_frame_of_df.
    change (assoc "No-show" df_columns) with (Some (λ r, VStr (No_show r))).
    eexists. split; [reflexivity|]. split; [done|]. split; [done|].
    by apply label_colors.
  - unfold update_waiting_by_day, px_box. rewrite !column_frame_of_df.
    change (assoc "No-show" df_columns) with (Some (λ r, VStr (No_show r))).
    change (assoc "AppointmentDayOfWeek" df_columns)
      with (Some (λ r, VStr (AppointmentDayOfWeek r))).
    change (assoc "WaitingDays" df_columns) with (Some (λ r, VInt (WaitingDays r))).
    eexists. split; [reflexivity|]. split; [done|]. split; [done|].
    by apply label_colors.
  - unfold update_main_graph, px_histogram. rewrite !column_frame_of_df.
    change (assoc "No-show" df_columns) with (Some (λ r, VStr (No_show r))).
    destruct (assoc v df_columns) as [cell|] eqn:Hcell.
    + destruct (decide (v ∈ ["Age"; "WaitingDays"]));
        cbn [mbind result_bind mret result_ret];
        (split; [done|]; split; [done|]); by apply label_colors.
    + apply assoc_None in Hcell. by destruct (decide (v ∈ ["Age"; "WaitingDays"])).
  - unfold update_gender_graph.
    destruct (px_bar _ _ _ _ _ _ _ _) as [f|] eqn:Hf; [|done].
    apply px_bar_flag_axis in Hf as (Hc & Haxis & Hcolors); [|done..].
    eexists. split; [reflexivity|]. split; [exact Hc|]. split; [exact Haxis|].
    unfold colors_of, mapped_color. cbn [update_layout fig_discrete_colors].
    by rewrite Hcolors.
  - unfold update_sms_graph.
    destruct (px_bar _ _ _ _ _ _ _ _) as [f|] eqn:Hf; [|done].
    apply px_bar_flag_axis in Hf as (Hc & Haxis & Hcolors); [|done..].
    eexists. split; [reflexivity|]. split; [exact Hc|]. split; [exact Haxis|].
    unfold colors_of, mapped_color. cbn [update_layout fig_discrete_colors].
    by rewrite Hcolors.
  - vm_compute. reflexivity.
Qed.

(** * Further properties *)

(** ** Startup and the summary cards *)




Lemma clean_flagged (raw : list RawRow) : Forall flagged (clean raw).
Proof. apply Forall_forall. by intros r (r0 & -> & _)%clean_derive. Qed.

Lemma flagged_sum (l : list Row) :
  Forall flagged l →
  sum (No_show_flag <$> l) = Z.of_nat (length (filter (λ r, No_show r = "Yes") l)).
Proof.
  induction 1 as [|r l Hr _ IH]; [done|].
  cbn [fmap list_fmap sum foldr]. fold (sum (No_show_flag <$> l)).
  rewrite filter_cons, Hr, IH. destruct (decide (No_show r = "Yes")); cbn [length]; lia.
Qed.

Lemma sum_nonneg (l : list Z) : Forall (λ z, 0 ≤ z) l → 0 ≤ sum l.
Proof.
  induction 1 as [|z l Hz _ IH]; [done|].
  cbn [sum foldr]. fold (sum l). lia.
Qed.

(** ** The cards of a served page *)






(** ** Rates are percentages *)

Lemma flagged_sum_bounds (l : list Row) :
  Forall flagged l → 0 ≤ sum (No_show_flag <$> l) ≤ Z.of_nat (length l).
Proof.
  intros Hl. rewrite (flagged_sum l Hl).
  pose proof (length_filter (λ r, No_show r = "Yes") l). lia.
Qed.

Lemma flagged_rate (l : list Row) :
  l ≠ [] → Forall flagged l →
  ∃ q, fmul (mean (No_show_flag <$> l)) (of_int 100) = F q ∧ (0 <= q)%Q ∧ (q <= 100)%Q.
Proof.
  intros Hne Hl.
  destruct (mean_value (No_show_flag <$> l)) as (q & Hq & Heq).
  { by destruct l. }
  exists q. split; [done|].
  pose proof (flagged_sum_bounds l Hl) as Hsum.
  rewrite Heq, length_fmap. destruct l as [|r l]; [done|].
  unfold Qle. cbn [Qnum Qden length] in *. lia.
Qed.

(** X4. Every rate of the age-group summary of the cleaned table is a
    number between 0 and 100, and every rate of the weekday summary is
    either missing (NaN) or a number between 0 and 100. *)
Theorem rates_are_percentages (raw : list RawRow) (row : RateRow) :
  (row ∈ age_group_rate (clean raw) →
     ∃ q, rate_No_show_Rate row = F q ∧ (0 <= q)%Q ∧ (q <= 100)%Q) ∧
  (row ∈ day_rate (clean raw) →
     rate_No_show_Rate row = NaN ∨
     ∃ q, rate_No_show_Rate row = F q ∧ (0 <= q)%Q ∧ (q <= 100)%Q).
Proof.
  pose proof (clean_flagged raw) as Hflag. split.
  - rewrite age_group_rate_buckets by apply clean_grouped_by_age.
    intros (iv & _ & Hrow)%list_elem_of_omap. unfold bucket_row in Hrow.
    destruct (filter _ (clean raw)) as [|r l] eqn:Hf; [done|].
    injection Hrow as <-. cbn [rate_No_show_Rate].
    apply (flagged_rate (r :: l)); [done|]. rewrite <- Hf.
    apply Forall_forall. intros r' [_ Hr']%list_elem_of_filter.
    rewrite Forall_forall in Hflag. by apply Hflag.
  - intros (d & _ & ->)%day_rate_row. cbn [rate_No_show_Rate].
    destruct (filter _ (clean raw)) as [|r l] eqn:Hf; [by left|]. right.
    apply (flagged_rate (r :: l)); [done|]. rewrite <- Hf.
    apply Forall_forall. intros r' [_ Hr']%list_elem_of_filter.
    rewrite Forall_forall in Hflag. by apply Hflag.
Qed.

Lemma rates_are_percentages_witness :
  (∃ q, F 50 = F q ∧ (0 <= q)%Q ∧ (q <= 100)%Q) ∧
  (NaN = NaN ∨ ∃ q, NaN = F q ∧ (0 <= q)%Q ∧ (q <= 100)%Q).
Proof.
  split.
  - refine (proj1 (rates_are_percentages decade_sample
      {| rate_group := "[10, 20)"; rate_No_show_flag := F (1 # 2);
         rate_No_show_Rate := F 50 |}) _).
    vm_compute. right. left.
  - refine (proj2 (rates_are_percentages decade_sample
      {| rate_group := "Monday"; rate_No_show_flag := NaN;
         rate_No_show_Rate := NaN |}) _).
    vm_compute. left.
Defined.

(** ** Weekdays *)

Lemma weekday_index (ts : Z) :
  0 ≤ (ts `div` NS_PER_DAY + 3) `mod` 7 < 7.
Proof. apply Z.mod_pos_bound. done. Qed.

Lemma nth_day_order (m : Z) :
  0 ≤ m < 7 → day_order !! Z.to_nat m = Some (nth (Z.to_nat m) day_order "").
Proof.
  intros Hm. assert (m = 0 ∨ m = 1 ∨ m = 2 ∨ m = 3 ∨ m = 4 ∨ m = 5 ∨ m = 6) as Hcases by lia.
  destruct_or!; subst m; reflexivity.
Qed.

Lemma day_name_in_day_order (ts : Z) : day_name ts ∈ day_order.
Proof.
  unfold day_name. eapply list_elem_of_lookup_2, nth_day_order, weekday_index.
Qed.

(** X5. The weekday name of a timestamp is one of the seven names of
    [day_order]; it is the same for every instant of one day and for the
    instant a week later, and a day later it is the next name in the
    order, Monday following Sunday. *)
Theorem day_name_calendar (ts : Z) :
  day_name ts ∈ day_order ∧
  day_name (ts + 7 * NS_PER_DAY) = day_name ts ∧
  (∀ k, 0 ≤ k < NS_PER_DAY → day_name (ts `div` NS_PER_DAY * NS_PER_DAY + k) = day_name ts) ∧
  ∃ i, (i < 7)%nat ∧ day_order !! i = Some (day_name ts) ∧
       day_order !! ((i + 1) `mod` 7)%nat = Some (day_name (ts + NS_PER_DAY)).
Proof.
  assert (0 < NS_PER_DAY) as Hpos by done.
  split; [apply day_name_in_day_order|]. split; [|split].
  - unfold day_name. rewrite Z.div_add by lia.
    replace (ts `div` NS_PER_DAY + 7 + 3) with (ts `div` NS_PER_DAY + 3 + 1 * 7) by lia.
    by rewrite Z.mod_add.
  - intros k Hk. unfold day_name.
    rewrite (Z.add_comm (ts `div` NS_PER_DAY * NS_PER_DAY) k), Z.div_add by lia.
    by rewrite (Z.div_small k) by lia.
  - unfold day_name.
    replace ((ts + NS_PER_DAY) `div` NS_PER_DAY) with (ts `div` NS_PER_DAY + 1).
    2: { replace (ts + NS_PER_DAY) with (ts + 1 * NS_PER_DAY) by lia.
         by rewrite Z.div_add by lia. }
    pose proof (weekday_index ts) as Hm.
    replace ((ts `div` NS_PER_DAY + 1 + 3) `mod` 7)
      with (((ts `div` NS_PER_DAY + 3) `mod` 7 + 1) `mod` 7).
    2: { rewrite Zplus_mod_idemp_l. f_equal. lia. }
    generalize dependent ((ts `div` NS_PER_DAY + 3) `mod` 7). intros m Hm.
    exists (Z.to_nat m).
    assert (m = 0 ∨ m = 1 ∨ m = 2 ∨ m = 3 ∨ m = 4 ∨ m = 5 ∨ m = 6) as Hcases by lia.
    destruct_or!; subst m; (split; [cbn; lia | split; reflexivity]).
Qed.

Lemma day_name_calendar_witness :
  day_name (1461888000 * 1000000000 + 67088 * 1000000000) = day_name (1461955088 * 1000000000).
Proof.
  refine (proj1 (proj2 (proj2 (day_name_calendar (1461955088 * 1000000000))))
            (67088 * 1000000000) _).
  unfold NS_PER_DAY. lia.
Defined.

Lemma count_one_key {K} `{EqDecision K} (ds : list K) (k : K) :
  NoDup ds → k ∈ ds →
  sum_list ((λ d, if decide (k = d) then 1 else 0)%nat <$> ds) = 1%nat.
Proof.
  induction 1 as [|d ds Hd _ IH]; [by intros ?%elem_of_nil|].
  intros Hk. cbn. destruct (decide (k = d)) as [->|Hne].
  - f_equal. clear IH Hk. induction ds as [|d' ds IH]; [done|].
    cbn. rewrite decide_False; [|intros <-; apply Hd; left].
    apply IH. intros Hin. apply Hd. by right.
  - apply IH. apply elem_of_cons in Hk as [?|?]; done.
Qed.

Lemma count_by_key {R K} `{EqDecision K} (key : R → K) (ds : list K) (l : list R) :
  NoDup ds → Forall (λ r, key r ∈ ds) l →
  sum_list ((λ d, length (filter (λ r, key r = d) l)) <$> ds) = length l.
Proof.
  intros Hds. induction 1 as [|r l Hr _ IH]; cbn [length].
  - induction ds as [|d ds IHds]; [done|]. cbn. apply IHds. by inversion Hds.
  - assert (sum_list ((λ d, length (filter (λ r, key r = d) (r :: l))) <$> ds) =
            (sum_list ((λ d, if decide (key r = d) then 1 else 0) <$> ds) +
             sum_list ((λ d, length (filter (λ r, key r = d) l)) <$> ds))%nat) as ->.
    { clear. induction ds as [|d ds IHds]; [done|].
      rewrite !fmap_cons. change (sum_list (?x :: ?xs)) with (x + sum_list xs)%nat.
      rewrite IHds, filter_cons.
      destruct (decide (key r = d)); cbn [length id]; lia. }
    by rewrite IH, (count_one_key ds (key r) Hds Hr).
Qed.

Lemma clean_weekdays (raw : list RawRow) :
  Forall (λ r, AppointmentDayOfWeek r ∈ day_order) (clean raw).
Proof.
  apply Forall_forall. intros r (r0 & -> & _)%clean_derive. apply day_name_in_day_order.
Qed.

(** X6. Every appointment of the cleaned table is counted under exactly
    one row of the weekday summary: the numbers of appointments behind
    its seven rows add up to the number of rows of the table. *)
Theorem day_rate_covers_table (raw : list RawRow) :
  let df := clean raw in
  (∀ r, r ∈ df → ∃ row, row ∈ day_rate df ∧ rate_group row = AppointmentDayOfWeek r) ∧
  sum_list ((λ row, length (filter (λ r, AppointmentDayOfWeek r = rate_group row) df))
              <$> day_rate df) = length df.
Proof.
  intros df. split.
  - intros r Hr.
    pose proof (clean_weekdays raw) as Hdays. rewrite Forall_forall in Hdays.
    set (m := match filter (λ r', AppointmentDayOfWeek r' = AppointmentDayOfWeek r) df with
              | [] => NaN
              | l => mean (No_show_flag <$> l)
              end).
    exists {| rate_group := AppointmentDayOfWeek r; rate_No_show_flag := m;
              rate_No_show_Rate := fmul m (of_int 100) |}.
    split; [|reflexivity].
    apply day_rate_row. exists (AppointmentDayOfWeek r). split; [by apply Hdays|].
    reflexivity.
  - rewrite <- (count_by_key AppointmentDayOfWeek day_order df).
    + unfold day_rate. by rewrite <- list_fmap_compose.
    + compute_done.
    + apply clean_weekdays.
Qed.

Lemma day_rate_covers_table_witness :
  ∃ row, row ∈ day_rate one_tuesday ∧ rate_group row = "Tuesday".
Proof.
  refine (proj1 (day_rate_covers_table
            [sample_row 30 (1461974400 * 1000000000) (1462233600 * 1000000000) "Yes"])
            (derive (sample_row 30 (1461974400 * 1000000000) (1462233600 * 1000000000) "Yes"))
            _).
  vm_compute. left.
Defined.

(** ** Waiting days *)

Lemma floor_sign (d b : Z) :
  0 < b → (d `div` b < 0 ↔ d < 0) ∧ (d `div` b = 0 ↔ 0 ≤ d < b).
Proof.
  intros Hb.
  pose proof (Z.mul_div_le d b Hb). pose proof (Z.mul_succ_div_gt d b Hb).
  split; split; intros Hd.
  - nia.
  - apply Z.div_lt_upper_bound; lia.
  - rewrite Hd in *. lia.
  - by apply Z.div_small.
Qed.

(** X7. For a row of the cleaned table the waiting days are negative
    exactly when the appointment timestamp lies before the scheduling
    timestamp, zero exactly when it lies less than a day after it, and
    they never decrease when the appointment moves later. *)
Theorem waiting_days_sign (raw : list RawRow) (r : Row) :
  r ∈ clean raw →
  (WaitingDays r < 0 ↔ AppointmentDay r < ScheduledDay r) ∧
  (WaitingDays r = 0 ↔ 0 ≤ AppointmentDay r - ScheduledDay r < NS_PER_DAY) ∧
  (∀ r', r' ∈ clean raw →
     AppointmentDay r - ScheduledDay r ≤ AppointmentDay r' - ScheduledDay r' →
     WaitingDays r ≤ WaitingDays r').
Proof.
  intros (r0 & -> & _)%clean_derive.
  cbn [derive WaitingDays AppointmentDay ScheduledDay]. unfold timedelta_days.
  assert (0 < NS_PER_DAY) as Hpos by done.
  destruct (floor_sign (raw_AppointmentDay r0 - raw_ScheduledDay r0) NS_PER_DAY Hpos)
    as [Hneg Hzero].
  split; [|split].
  - rewrite Hneg. lia.
  - exact Hzero.
  - intros r' (r1 & -> & _)%clean_derive.
    cbn [derive WaitingDays AppointmentDay ScheduledDay]. unfold timedelta_days.
    intros Hle. by apply Z.div_le_mono.
Qed.

Lemma waiting_days_sign_witness :
  let r := derive same_day_booking in
  (WaitingDays r < 0 ↔ AppointmentDay r < ScheduledDay r) ∧
  (WaitingDays r = 0 ↔ 0 ≤ AppointmentDay r - ScheduledDay r < NS_PER_DAY) ∧
  (∀ r', r' ∈ clean [same_day_booking] →
     AppointmentDay r - ScheduledDay r ≤ AppointmentDay r' - ScheduledDay r' →
     WaitingDays r ≤ WaitingDays r').
Proof.
  apply (waiting_days_sign [same_day_booking]).
  vm_compute. left.
Defined.

(** ** Order of the age-group summary *)

Lemma omap_fmap_sublist {A B C} (f : A → option B) (g : B → C) (h : A → C) (l : list A) :
  (∀ x y, f x = Some y → g y = h x) → (g <$> omap f l) `sublist_of` (h <$> l).
Proof.
  intros Hfg. induction l as [|x l IH]; [constructor|].
  cbn. destruct (f x) as [y|] eqn:Hx; cbn.
  - rewrite (Hfg x y Hx). by apply sublist_skip.
  - by apply sublist_cons.
Qed.

(** X8. The age-group summary of the cleaned table lists its groups in
    increasing order of age and each at most once: its labels are the
    labels '[0, 10)' to '[90, 100)' with some left out, so it has at most
    ten rows. *)
Theorem age_group_rate_order (raw : list RawRow) :
  let labels := rate_group <$> age_group_rate (clean raw) in
  labels `sublist_of`
    [ "[0, 10)"; "[10, 20)"; "[20, 30)"; "[30, 40)"; "[40, 50)";
      "[50, 60)"; "[60, 70)"; "[70, 80)"; "[80, 90)"; "[90, 100)" ] ∧
  NoDup labels ∧ (length labels ≤ 10)%nat.
Proof.
  intros labels.
  assert (labels `sublist_of` (str_interval <$> intervals age_bins)) as Hsub.
  { unfold labels. rewrite age_group_rate_buckets by apply clean_grouped_by_age.
    apply omap_fmap_sublist. intros iv row. unfold bucket_row.
    destruct (filter _ (clean raw)); [done|]. by intros [= <-]. }
  split; [exact Hsub|]. split.
  - eapply sublist_NoDup; [|exact Hsub]. compute_done.
  - apply (sublist_length _ _ Hsub).
Qed.

(** ** String mirrors of the flags *)

Lemma parse_str_int (z : Z) : parse_int (str_int z) = Some z.
Proof.
  unfold parse_int, str_int.
  assert (Z.to_int z = Decimal.norm (Z.to_int z)) as Hnorm
    by (by rewrite <- DecimalZ.to_of, DecimalZ.of_to).
  rewrite NilZero.isi.
  - by rewrite DecimalZ.of_to.
  - intros Hnil. rewrite Hnil in Hnorm. discriminate.
  - intros Hnil. rewrite Hnil in Hnorm. discriminate.
Qed.

Lemma str_int_inj (y z : Z) : str_int y = str_int z → y = z.
Proof.
  intros Heq. assert (parse_int (str_int y) = parse_int (str_int z)) as Hp by congruence.
  rewrite !parse_str_int in Hp. congruence.
Qed.

(** X12. The five string mirrors of a row of the cleaned table read back
    as the flags they were made from, so two rows have the same label
    exactly when they have the same flag: grouping by
    SMS_received_label groups by SMS_received. *)
Theorem labels_read_back (raw : list RawRow) (r r' : Row) :
  r ∈ clean raw → r' ∈ clean raw →
  parse_int (SMS_received_label r) = Some (SMS_received r) ∧
  parse_int (Scholarship_label r) = Some (Scholarship r) ∧
  parse_int (Hipertension_label r) = Some (Hipertension r) ∧
  parse_int (Diabetes_label r) = Some (Diabetes r) ∧
  parse_int (Alcoholism_label r) = Some (Alcoholism r) ∧
  (SMS_received_label r = SMS_received_label r' ↔ SMS_received r = SMS_received r').
Proof.
  intros (r0 & -> & _)%clean_derive (r1 & -> & _)%clean_derive.
  cbn [derive SMS_received_label Scholarship_label Hipertension_label Diabetes_label
       Alcoholism_label SMS_received Scholarship Hipertension Diabetes Alcoholism].
  rewrite !parse_str_int. do 5 (split; [done|]).
  split; [apply str_int_inj | by intros ->].
Qed.

Lemma labels_read_back_witness :
  let r := derive (sample_man 40 "Yes") in
  let r' := derive (sample_row 5 0 0 "Yes") in
  parse_int (SMS_received_label r) = Some (SMS_received r) ∧
  parse_int (Scholarship_label r) = Some (Scholarship r) ∧
  parse_int (Hipertension_label r) = Some (Hipertension r) ∧
  parse_int (Diabetes_label r) = Some (Diabetes r) ∧
  parse_int (Alcoholism_label r) = Some (Alcoholism r) ∧
  (SMS_received_label r = SMS_received_label r' ↔ SMS_received r = SMS_received r').
Proof.
  apply (labels_read_back [sample_man 40 "Yes"; sample_row 5 0 0 "Yes"]).
  - vm_compute. left.
  - vm_compute. right. left.
Defined.

(** ** The main chart and the columns of the table *)

Lemma frame_of_df_names (rows : list Row) : (frame_of_df rows).*1 = df_columns.*1.
Proof. reflexivity. Qed.

Lemma update_main_graph_unknown (g : Globals) (v : string) :
  v ∉ df_columns.*1 →
  update_main_graph g v = Err (unknown_column (frame_of_df (df g)) "x" v).
Proof.
  intros Hv%assoc_None. unfold update_main_graph, px_histogram.
  rewrite !column_frame_of_df, Hv. by destruct (decide _).
Qed.

Lemma update_main_graph_column (g : Globals) (v : string) :
  v ∈ df_columns.*1 → succeeds (update_main_graph g v).
Proof.
  intros Hv. destruct (assoc v df_columns) as [cell|] eqn:Hcell.
  - destruct (update_main_graph_Ok g v cell Hcell) as (fig & Hfig & _). by exists fig.
  - by apply assoc_None in Hcell.
Qed.

(** X9. The main callback returns a figure exactly for the names of the
    23 columns of the table, the fourteen of the CSV file and the nine
    derived ones. For every other string it raises the ValueError of the
    charting library, whose message names the argument 'x', lists the 23
    columns and ends with the value received. So the dropdown's values
    all work, while a label that differs from its value ("Hypertension",
    "SMS Received", "Waiting Days") would not. *)
Theorem main_graph_needs_a_column (g : Globals) (v : string) :
  df_columns.*1 =
    [ "PatientId"; "AppointmentID"; "Gender"; "ScheduledDay"; "AppointmentDay"; "Age";
      "Neighbourhood"; "Scholarship"; "Hipertension"; "Diabetes"; "Alcoholism"; "Handcap";
      "SMS_received"; "No-show"; "WaitingDays"; "AppointmentDayOfWeek"; "No-show_flag";
      "SMS_received_label"; "Scholarship_label"; "Hipertension_label"; "Diabetes_label";
      "Alcoholism_label"; "Age_Group" ] ∧
  (if decide (v ∈ df_columns.*1) then succeeds (update_main_graph g v)
   else update_main_graph g v =
     Err (ValueError
       ("Value of 'x' is not the name of a column in 'data_frame'. Expected one of "
        +:+ "['PatientId', 'AppointmentID', 'Gender', 'ScheduledDay', 'AppointmentDay', "
        +:+ "'Age', 'Neighbourhood', 'Scholarship', 'Hipertension', 'Diabetes', "
        +:+ "'Alcoholism', 'Handcap', 'SMS_received', 'No-show', 'WaitingDays', "
        +:+ "'AppointmentDayOfWeek', 'No-show_flag', 'SMS_received_label', "
        +:+ "'Scholarship_label', 'Hipertension_label', 'Diabetes_label', "
        +:+ "'Alcoholism_label', 'Age_Group'] but received: " +:+ v
        +:+ (if decide (v = "index")
             then String "010"%char " To use the index, pass it in directly as `df.index`."
             else "")))) ∧
  Forall (λ w, w ∈ df_columns.*1) dropdown_values ∧
  filter (λ o, o.1 ∉ df_columns.*1) dropdown_options =
    [ ("Hypertension", "Hipertension"); ("SMS Received", "SMS_received");
      ("Waiting Days", "WaitingDays") ].
Proof.
  split; [reflexivity|]. split; [|split].
  - destruct (decide _).
    + by apply update_main_graph_column.
    + rewrite update_main_graph_unknown by done.
      unfold unknown_column. rewrite frame_of_df_names. reflexivity.
  - unfold dropdown_values. cbn [fmap list_fmap dropdown_options snd].
    repeat (constructor; [compute_done|]). constructor.
  - vm_compute. reflexivity.
Qed.

(** ** The page under arbitrary events *)

Lemma publish_is_Some (answer : result Figure) (shown : option Figure) :
  is_Some shown ∨ succeeds answer → is_Some (publish answer shown).
Proof. destruct answer; cbn; [by eexists | by intros [?|[? ?]]]. Qed.

Lemma forallb_Age_Group (rows : list Row) :
  forallb serializable ((λ r, from_option VInterval VMissing (Age_Group r)) <$> rows) =
    bool_decide (¬ Exists (λ r, is_Some (Age_Group r)) rows).
Proof.
  induction rows as [|r rows IH]; [done|].
  rewrite fmap_cons. cbn [forallb]. rewrite IH.
  destruct (Age_Group r) as [iv|] eqn:Hr; cbn [from_option serializable andb].
  - symmetry. apply bool_decide_eq_false. intros Hno. apply Hno. left. by rewrite Hr.
  - apply bool_decide_ext. rewrite Exists_cons, Hr.
    split; [intros Hno [[? [=]]|?]; by apply Hno | intros Hno ?; apply Hno; by right].
Qed.

(** What the main callback's request adds to the log. *)
Lemma main_graph_logged (g : Globals) (v : string) :
  raised (respond "main-graph.figure" (update_main_graph g v)) =
    if decide (v ∈ df_columns.*1) then
      if decide (v = "Age_Group" ∧ Exists (λ r, is_Some (Age_Group r)) (df g))
      then [InvalidCallbackReturnValue "main-graph.figure"]
      else []
    else [unknown_column (frame_of_df (df g)) "x" v].
Proof.
  destruct (decide (v ∈ df_columns.*1)) as [Hv|Hv].
  2: { by rewrite update_main_graph_unknown. }
  destruct (decide (v = "Age_Group")) as [->|Hne].
  - destruct (update_main_graph_Ok g "Age_Group" _ eq_refl) as (fig & Hfig & _).
    pose proof (update_main_graph_cells g "Age_Group" _ fig eq_refl Hfig) as Hcells.
    rewrite Hfig. unfold respond, to_json. cbn [mbind result_bind].
    rewrite Hcells, forallb_app, forallb_Age_Group.
    rewrite (serializable_fmap (λ r, VStr (No_show r))) by done.
    rewrite andb_true_r.
    destruct (decide (_ ∧ Exists _ (df g))) as [[_ He]|He].
    + by rewrite bool_decide_eq_false_2 by (by intros Hno).
    + by rewrite bool_decide_eq_true_2 by (by intros Hex; apply He).
  - rewrite respond_main_graph by done.
    rewrite decide_False by (by intros [? _]).
    by apply raised_succeeds, update_main_graph_column.
Qed.

Lemma on_change_errors_any (v : string) (st : State) :
  errors (on_change v st) =
    (errors st ++ raised (respond "main-graph.figure" (update_main_graph (globals st) v)))%list.
Proof.
  cbn [on_change errors].
  rewrite respond_target_graph, respond_gender_graph, respond_sms_graph,
    respond_waiting_by_day, respond_age_rate_graph, respond_day_rate_graph.
  rewrite (raised_succeeds _ (update_target_graph_Ok (globals st) v)).
  rewrite (raised_succeeds _ (update_gender_graph_Ok (globals st) v)).
  rewrite (raised_succeeds _ (update_sms_graph_Ok (globals st) v)).
  rewrite (raised_succeeds _ (update_waiting_by_day_Ok (globals st) v)).
  rewrite (raised_succeeds _ (update_age_rate_graph_Ok (globals st) v)).
  rewrite (raised_succeeds _ (update_day_rate_graph_Ok (globals st) v)).
  by rewrite !app_nil_r.
Qed.

Lemma run_errors_any (events : list string) (st : State) :
  errors (run events st) =
    (errors st ++
     events ≫= λ v, raised (respond "main-graph.figure" (update_main_graph (globals st) v)))%list.
Proof.
  revert st. induction events as [|v events IH]; intros st.
  - by rewrite app_nil_r.
  - cbn [run foldl]. fold (run events (on_change v st)).
    rewrite IH, on_change_errors_any, bind_cons, <- app_assoc. done.
Qed.

Lemma on_change_keeps_shown (v : string) (st : State) :
  all_shown st → all_shown (on_change v st).
Proof.
  unfold all_shown, on_change.
  cbn [charts main_graph target_distribution gender_impact_graph sms_impact_graph
       waitingdays_by_day age_group_rate_graph day_of_week_rate_graph].
  intros (? & ? & ? & ? & ? & ? & ?).
  repeat split; apply publish_is_Some; by left.
Qed.

Lemma run_all_shown (events : list string) (st : State) :
  all_shown st → all_shown (run events st).
Proof.
  revert st. induction events as [|v events IH]; intros st Hst; [done|].
  cbn [run foldl]. fold (run events (on_change v st)).
  by apply IH, on_change_keeps_shown.
Qed.

Lemma first_page_all_shown (g : Globals) (c : Cards) : all_shown (first_page g c).
Proof.
  unfold first_page, page_load. rewrite on_change_plain by done.
  unfold all_shown.
  cbn [charts main_graph target_distribution gender_impact_graph sms_impact_graph
       waitingdays_by_day age_group_rate_graph day_of_week_rate_graph initial globals
       dropdown].
  split; [apply publish_is_Some; right; apply update_main_graph_column; compute_done|].
  split; [apply publish_is_Some; right; apply update_target_graph_Ok|].
  split; [apply publish_is_Some; right; apply update_gender_graph_Ok|].
  split; [apply publish_is_Some; right; apply update_sms_graph_Ok|].
  split; [apply publish_is_Some; right; apply update_waiting_by_day_Ok|].
  split; [apply publish_is_Some; right; apply update_age_rate_graph_Ok|].
  apply publish_is_Some; right; apply update_day_rate_graph_Ok.
Qed.

(** X10. Whatever strings arrive as dropdown values after the page has
    loaded, all seven slots keep showing a figure, and the log has, in
    the order of arrival, one entry for each value the main chart cannot
    show: the ValueError of the main callback for a value that is not a
    column of the table, and the refusal of the main callback's figure
    for 'Age_Group' when a row has an age group, whose Interval cannot
    be written as JSON. The six other callbacks add nothing. *)
Theorem page_under_any_events (g : Globals) (c : Cards) (events : list string) :
  let st := run events (first_page g c) in
  all_shown st ∧
  errors st =
    events ≫= λ v,
      if decide (v ∈ df_columns.*1) then
        if decide (v = "Age_Group" ∧ Exists (λ r, is_Some (Age_Group r)) (df g))
        then [InvalidCallbackReturnValue "main-graph.figure"]
        else []
      else [unknown_column (frame_of_df (df g)) "x" v].
Proof.
  intros st. split.
  - apply run_all_shown, first_page_all_shown.
  - unfold st. rewrite run_errors_any. unfold first_page, page_load.
    rewrite on_change_errors, on_change_globals by (cbn; left).
    cbn [initial errors globals app].
    apply list_bind_ext; [|done]. intros v. apply main_graph_logged.
Qed.

(** ** The charts depend on the last value only *)

Lemma on_change_charts (v : string) (st st' : State) :
  globals st = globals st' → v ∈ df_columns.*1 → v ≠ "Age_Group" →
  charts (on_change v st) = charts (on_change v st').
Proof.
  intros Hg Hv Hne. rewrite !on_change_plain by done. cbv zeta. cbn [charts]. rewrite <- Hg.
  destruct (update_main_graph_column (globals st) v Hv) as [f1 ->].
  destruct (update_target_graph_Ok (globals st) v) as [f2 ->].
  destruct (update_gender_graph_Ok (globals st) v) as [f3 ->].
  destruct (update_sms_graph_Ok (globals st) v) as [f4 ->].
  destruct (update_waiting_by_day_Ok (globals st) v) as [f5 ->].
  destruct (update_age_rate_graph_Ok (globals st) v) as [f6 ->].
  destruct (update_day_rate_graph_Ok (globals st) v) as [f7 ->].
  reflexivity.
Qed.

(** X11. The figures a page shows depend only on the last value it
    received, when that value is a column of the table other than
    'Age_Group': after any sequence of earlier events, valid or not, the
    seven slots are what a fresh page shows for that value alone, and
    the dropdown holds it. *)
Theorem charts_depend_on_last_value (g : Globals) (c c' : Cards) (events : list string)
    (v : string) :
  v ∈ df_columns.*1 →
  v ≠ "Age_Group" →
  charts (run (events ++ [v])%list (first_page g c)) = charts (on_change v (initial g c')) ∧
  dropdown (run (events ++ [v])%list (first_page g c)) = v.
Proof.
  intros Hv Hne. unfold run. rewrite foldl_snoc. fold (run events (first_page g c)).
  split; [|reflexivity].
  apply on_change_charts; [|done..]. by rewrite run_globals.
Qed.

Lemma charts_depend_on_last_value_witness :
  charts (run (["Gender"; "Weight"; "Age_Group"] ++ ["Handcap"])%list
            (first_page (load decade_sample) sample_cards)) =
    charts (on_change "Handcap" (initial (load decade_sample) sample_cards)) ∧
  dropdown (run (["Gender"; "Weight"; "Age_Group"] ++ ["Handcap"])%list
              (first_page (load decade_sample) sample_cards)) = "Handcap".
Proof.
  apply (charts_depend_on_last_value (load decade_sample) sample_cards sample_cards).
  - compute_done.
  - discriminate.
Defined.

(** ** The bars of the gender and SMS charts *)

(** X13. The bar chart by gender has one bar for each pair of a gender
    and a flag that occurs in the table, and the bar chart by SMS
    reminder one bar for each pair of an SMS label and a flag: ordered
    by the gender (or label) and then the flag, the bars of one gender
    (or label) side by side; the height of a bar is the number of
    appointments with that pair, so no bar is empty. *)
Theorem impact_graph_bars (g : Globals) (v : string) :
  (∃ fig, update_gender_graph g v = Ok fig ∧ counted fig "Gender" Gender (df g)) ∧
  (∃ fig, update_sms_graph g v = Ok fig ∧
     counted fig "SMS_received_label" SMS_received_label (df g)).
Proof.
  split.
  - destruct (group_sizes_bars "Gender" Gender (df g))
      as (bars & Hframe & Hsorted & Hnodup & Hbars & _).
    unfold update_gender_graph.
    destruct (px_bar _ _ _ _ _ _ _ _) as [f|] eqn:Hf; [|done].
    eexists. split; [reflexivity|]. exists bars.
    destruct (px_bar_kind _ _ _ _ _ _ _ _ _ Hf) as [Hkind _].
    assert (fig_layout (update_layout dark f) !! "barmode" = Some (AStr "group")) as Hmode.
    { cbn [update_layout fig_layout]. rewrite lookup_barmode_dark.
      revert Hf. unfold px_bar, column.
      destruct (assoc _ _); [|done]. destruct (assoc _ _); [|done].
      destruct (assoc _ _); [|done]. intros [= <-]. cbn [fig_layout default].
      by rewrite lookup_insert_eq. }
    apply px_bar_group_sizes in Hf as (xs & cs & ys & Hframe' & Hx & Hc & Hy); [|done..].
    rewrite Hframe in Hframe'. injection Hframe' as <- <- <-.
    cbn [update_layout fig_kind fig_x fig_y fig_color] in *.
    by rewrite Hx, Hc, Hy.
  - destruct (group_sizes_bars "SMS_received_label" SMS_received_label (df g))
      as (bars & Hframe & Hsorted & Hnodup & Hbars & _).
    unfold update_sms_graph.
    destruct (px_bar _ _ _ _ _ _ _ _) as [f|] eqn:Hf; [|done].
    eexists. split; [reflexivity|]. exists bars.
    destruct (px_bar_kind _ _ _ _ _ _ _ _ _ Hf) as [Hkind _].
    assert (fig_layout (update_layout dark f) !! "barmode" = Some (AStr "group")) as Hmode.
    { cbn [update_layout fig_layout]. rewrite lookup_barmode_dark.
      revert Hf. unfold px_bar, column.
      destruct (assoc _ _); [|done]. destruct (assoc _ _); [|done].
      destruct (assoc _ _); [|done]. intros [= <-]. cbn [fig_layout default].
      by rewrite lookup_insert_eq. }
    apply px_bar_group_sizes in Hf as (xs & cs & ys & Hframe' & Hx & Hc & Hy); [|done..].
    rewrite Hframe in Hframe'. injection Hframe' as <- <- <-.
    cbn [update_layout fig_kind fig_x fig_y fig_color] in *.
    by rewrite Hx, Hc, Hy.
Qed.

(** ** The rate charts *)

(** X14. The two rate charts plot the summary tables as they are: the
    weekday chart always has the seven bars Monday to Sunday in that
    order, whatever the data, with the rates of the weekday summary
    (NaN where a weekday has no appointment) as heights; the age chart
    has one bar per row of the age-group summary, in its order. Neither
    has a color column; all bars take the single color '#FF9500'. *)
Theorem rate_graphs_plot_the_summaries (raw : list RawRow) (v : string) :
  let df := clean raw in
  ∃ days ages,
    update_day_rate_graph (load raw) v = Ok days ∧
    update_age_rate_graph (load raw) v = Ok ages ∧
    fig_kind days = Bar ∧ fig_kind ages = Bar ∧
    fig_x days =
      Some ("AppointmentDayOfWeek",
            VStr <$> ["Monday"; "Tuesday"; "Wednesday"; "Thursday"; "Friday"; "Saturday";
                      "Sunday"]) ∧
    fig_y days =
      Some ("No-show Rate (%)", (λ r, VFloat (rate_No_show_Rate r)) <$> day_rate df) ∧
    length (day_rate df) = 7%nat ∧
    fig_x ages = Some ("Age_Group", (λ r, VStr (rate_group r)) <$> age_group_rate df) ∧
    fig_y ages =
      Some ("No-show Rate (%)", (λ r, VFloat (rate_No_show_Rate r)) <$> age_group_rate df) ∧
    fig_color days = None ∧ fig_color ages = None ∧
    fig_color_discrete_sequence days = ["#FF9500"] ∧
    fig_color_discrete_sequence ages = ["#FF9500"].
Proof.
  intros df. unfold update_day_rate_graph, update_age_rate_graph. cbn [load g_day_rate g_age_group_rate].
  fold df.
  destruct (px_bar_frame_of_rates "AppointmentDayOfWeek" (day_rate df) None [] [NO_SHOW_COLOR]
              "No-Show Rate by Day of the Week") as (days & -> & Hk & Hx & Hy & Hc & Hs); [done|].
  destruct (px_bar_frame_of_rates "Age_Group" (age_group_rate df) None [] [NO_SHOW_COLOR]
              "No-Show Rate by Age Group") as (ages & -> & Hk' & Hx' & Hy' & Hc' & Hs'); [done|].
  eexists _, _. split; [reflexivity|]. split; [reflexivity|].
  cbn [update_layout fig_kind fig_x fig_y fig_color fig_color_discrete_sequence].
  rewrite Hk, Hk', Hx, Hy, Hx', Hy', Hc, Hc', Hs, Hs'.
  repeat split; try done.
Qed.

(** ** Cleaning row by row *)

(** X15. Cleaning works row by row: the cleaned table of two files put
    one after the other is the two cleaned tables one after the other;
    it never has more rows than the input, keeps every row when no age
    is negative, and every row of it carries the ten input columns of an
    input row unchanged. *)
Theorem clean_row_by_row (a b : list RawRow) :
  clean (a ++ b) = (clean a ++ clean b)%list ∧
  (length (clean a) ≤ length a)%nat ∧
  (Forall (λ r, 0 ≤ raw_Age r) a → clean a = derive <$> a) ∧
  (∀ r, r ∈ clean a → ∃ r0, r0 ∈ a ∧
     Gender r = raw_Gender r0 ∧ ScheduledDay r = raw_ScheduledDay r0 ∧
     AppointmentDay r = raw_AppointmentDay r0 ∧ Age r = raw_Age r0 ∧
     Scholarship r = raw_Scholarship r0 ∧ Hipertension r = raw_Hipertension r0 ∧
     Diabetes r = raw_Diabetes r0 ∧ Alcoholism r = raw_Alcoholism r0 ∧
     SMS_received r = raw_SMS_received r0 ∧ No_show r = raw_No_show r0).
Proof.
  split; [|split; [|split]].
  - unfold clean. by rewrite filter_app, fmap_app.
  - unfold clean. rewrite length_fmap. apply length_filter.
  - intros Hall. unfold clean. f_equal.
    induction Hall as [|r l Hr _ IH]; [done|]. by rewrite filter_cons_True, IH.
  - intros r (r0 & -> & Hin & _)%clean_derive. exists r0. split; [done|].
    rewrite derive_No_show. done.
Qed.

Lemma clean_row_by_row_witness :
  clean [sample_row 5 0 0 "Yes"; sample_man 40 "No"] =
    derive <$> [sample_row 5 0 0 "Yes"; sample_man 40 "No"].
Proof.
  refine (proj1 (proj2 (proj2 (clean_row_by_row [sample_row 5 0 0 "Yes"; sample_man 40 "No"] [])))
            _).
  repeat constructor; cbn; lia.
Defined.

(** ** Theme and titles *)

Lemma update_dark_lookup (m : gmap string Attr) :
  update dark m !! "title_font_color" = Some (AStr "white") ∧
  update dark m !! "title_font_size" = Some (AInt 24) ∧
  update dark m !! "font_color" = Some (AStr "white") ∧
  update dark m !! "plot_bgcolor" = Some (AStr "#2c3e50") ∧
  update dark m !! "paper_bgcolor" = Some (AStr "#1E1E1E") ∧
  update dark m !! "title_text" = m !! "title_text".
Proof.
  unfold update, dark. cbn [foldl fst snd].
  repeat split; repeat (rewrite lookup_insert_ne by done); by rewrite ?lookup_insert_eq.
Qed.

Lemma px_histogram_title data x color nbins barmode cdm title fig :
  px_histogram data x color nbins barmode cdm title = Ok fig →
  fig_layout fig !! "title_text" = Some (AStr title).
Proof.
  unfold px_histogram, column.
  destruct (assoc x data); [|done]. destruct (assoc color data); [|done].
  intros [= <-]. cbn [fig_layout]. by rewrite lookup_insert_ne, lookup_insert_eq.
Qed.

Lemma px_pie_title data names color cdm title fig :
  px_pie data names color cdm title = Ok fig →
  fig_layout fig !! "title_text" = Some (AStr title).
Proof.
  unfold px_pie, column.
  destruct (assoc names data); [|done]. destruct (assoc color data); [|done].
  intros [= <-]. cbn [fig_layout]. by rewrite lookup_insert_eq.
Qed.

Lemma px_bar_title data x y color barmode cdm cds title fig :
  px_bar data x y color barmode cdm cds title = Ok fig →
  fig_layout fig !! "title_text" = Some (AStr title).
Proof.
  unfold px_bar, column.
  destruct (assoc x data); [|done]. destruct (assoc y data); [|done].
  destruct color as [c|]; [destruct (assoc c data); [|done]|];
    intros [= <-]; cbn [fig_layout]; by rewrite lookup_insert_ne, lookup_insert_eq.
Qed.

Lemma px_box_title data x y color cdm title fig :
  px_box data x y color cdm title = Ok fig →
  fig_layout fig !! "title_text" = Some (AStr title).
Proof.
  unfold px_box, column.
  destruct (assoc x data); [|done]. destruct (assoc y data); [|done].
  destruct (assoc color data); [|done].
  intros [= <-]. cbn [fig_layout]. by rewrite lookup_insert_ne, lookup_insert_eq.
Qed.

Lemma themed_dark (fig : Figure) (m : gmap string Attr) (title : string) :
  fig_layout fig = update dark m → m !! "title_text" = Some (AStr title) → themed fig title.
Proof.
  intros Hl Ht. destruct (update_dark_lookup m) as (? & ? & ? & ? & ? & Htitle).
  unfold themed. by rewrite Hl, Htitle, Ht.
Qed.

Lemma gridded_axis_style (m : gmap string Attr) : gridded (update axis_style m).
Proof.
  unfold gridded, update, axis_style. cbn [foldl fst snd].
  repeat split; repeat (rewrite lookup_insert_ne by done); by rewrite ?lookup_insert_eq.
Qed.

(** X16. Each callback's figure keeps, under the dark theme of the page
    (white title and font, title size 24, plot background '#2c3e50',
    paper background '#1E1E1E'), the title its own chart was built
    with: the main chart 'Distribution of <feature> by Attendance' for
    "Age" and "WaitingDays" and 'Attendance by <feature>' for any other
    column, with both axes styled, and each of the six other charts its
    fixed title. *)
Theorem figures_share_theme (g : Globals) (v : string) :
  match update_main_graph g v with
  | Ok fig =>
      themed fig (if decide (v ∈ ["Age"; "WaitingDays"])
                  then "Distribution of " +:+ v +:+ " by Attendance"
                  else "Attendance by " +:+ v) ∧
      gridded (fig_xaxes fig) ∧ gridded (fig_yaxes fig)
  | Err _ => v ∉ df_columns.*1
  end ∧
  (∃ fig, update_target_graph g v = Ok fig ∧
     themed fig "Show vs No-Show Distribution") ∧
  (∃ fig, update_gender_graph g v = Ok fig ∧
     themed fig "Attendance by Gender (0=Show, 1=No-show)") ∧
  (∃ fig, update_sms_graph g v = Ok fig ∧
     themed fig "Attendance by SMS Received (0=Show, 1=No-show)") ∧
  (∃ fig, update_waiting_by_day g v = Ok fig ∧
     themed fig "Waiting Days by Appointment Day of the Week") ∧
  (∃ fig, update_age_rate_graph g v = Ok fig ∧
     themed fig "No-Show Rate by Age Group") ∧
  (∃ fig, update_day_rate_graph g v = Ok fig ∧
     themed fig "No-Show Rate by Day of the Week").
Proof.
  split; [|split; [|split; [|split; [|split; [|split]]]]].
  - unfold update_main_graph.
    destruct (decide (v ∈ ["Age"; "WaitingDays"]));
      (destruct (px_histogram _ _ _ _ _ _ _) as [f|] eqn:Hf;
       [ cbn [mbind result_bind mret result_ret];
         split; [|split; apply gridded_axis_style];
         apply (themed_dark _ (fig_layout f)); [reflexivity|];
         by apply px_histogram_title in Hf
       | revert Hf; unfold px_histogram; rewrite !column_frame_of_df;
         destruct (assoc v df_columns) eqn:Hcell; [done|];
         intros _; by apply assoc_None ]).
  - destruct (update_target_graph_Ok g v) as [fig Hfig]. revert Hfig.
    unfold update_target_graph.
    destruct (px_pie _ _ _ _ _) as [f|] eqn:Hf; [|done]. intros _.
    eexists. split; [reflexivity|].
    apply (themed_dark _ (fig_layout f)); [reflexivity|]. by apply px_pie_title in Hf.
  - unfold update_gender_graph.
    destruct (px_bar _ _ _ _ _ _ _ _) as [f|] eqn:Hf; [|done].
    eexists. split; [reflexivity|].
    apply (themed_dark _ (fig_layout f)); [reflexivity|]. by apply px_bar_title in Hf.
  - unfold update_sms_graph.
    destruct (px_bar _ _ _ _ _ _ _ _) as [f|] eqn:Hf; [|done].
    eexists. split; [reflexivity|].
    apply (themed_dark _ (fig_layout f)); [reflexivity|]. by apply px_bar_title in Hf.
  - destruct (update_waiting_by_day_Ok g v) as [fig Hfig]. revert Hfig.
    unfold update_waiting_by_day.
    destruct (px_box _ _ _ _ _ _) as [f|] eqn:Hf; [|done]. intros _.
    eexists. split; [reflexivity|].
    apply (themed_dark _ (fig_layout f)); [reflexivity|]. by apply px_box_title in Hf.
  - unfold update_age_rate_graph.
    destruct (px_bar _ _ _ _ _ _ _ _) as [f|] eqn:Hf; [|done].
    eexists. split; [reflexivity|].
    apply (themed_dark _ (fig_layout f)); [reflexivity|]. by apply px_bar_title in Hf.
  - unfold update_day_rate_graph.
    destruct (px_bar _ _ _ _ _ _ _ _) as [f|] eqn:Hf; [|done].
    eexists. split; [reflexivity|].
    apply (themed_dark _ (fig_layout f)); [reflexivity|]. by apply px_bar_title in Hf.
Qed.

(** ** Rows the age-group summary counts *)


(** ** Series of a figure *)

Lemma impact_series_aligned (label : string) (by_col : Row → string) (df : list Row)
    barmode cdm cds title (f : Figure) :
  label ≠ "No-show_flag" → label ≠ "count" →
  px_bar (group_sizes label by_col df) label "count" (Some "No-show_flag")
    barmode cdm cds title = Ok f →
  ∃ n, series_length (fig_x f) n ∧ series_length (fig_y f) n ∧
       series_length (fig_names f) n ∧ series_length (fig_color f) n ∧ fig_kind f = Bar.
Proof.
  intros Hl1 Hl2 Hf.
  destruct (px_bar_kind _ _ _ _ _ _ _ _ _ Hf) as [Hkind Hnames].
  destruct (group_sizes_bars label by_col df) as (bars & Hframe & _).
  apply px_bar_group_sizes in Hf as (xs & cs & ys & Hframe' & Hx & Hc & Hy); [|done..].
  rewrite Hframe in Hframe'. injection Hframe' as <- <- <-.
  exists (length bars). rewrite Hx, Hc, Hy, Hnames, Hkind. cbn. by rewrite !length_fmap.
Qed.

Lemma rate_series_aligned (index : string) (t : list RateRow) barmode cdm cds title
    (f : Figure) :
  index ≠ "No-show Rate (%)" →
  px_bar (frame_of_rates index t) index "No-show Rate (%)" None barmode cdm cds title = Ok f →
  ∃ n, series_length (fig_x f) n ∧ series_length (fig_y f) n ∧
       series_length (fig_names f) n ∧ series_length (fig_color f) n ∧ fig_kind f = Bar.
Proof.
  intros Hindex Hf.
  destruct (px_bar_kind _ _ _ _ _ _ _ _ _ Hf) as [Hkind Hnames].
  destruct (px_bar_frame_of_rates index t barmode cdm cds title Hindex)
    as (f' & Hf' & _ & Hx & Hy & Hc & _).
  rewrite Hf in Hf'. injection Hf' as <-.
  exists (length t). rewrite Hx, Hy, Hc, Hnames, Hkind. cbn. by rewrite !length_fmap.
Qed.

(** X18. In every figure a callback returns, the series it has (x, y,
    names, color) all have the same number of cells: one per appointment
    in the main chart, the pie chart and the box plot, one per bar in
    the four bar charts. *)
Theorem figure_series_aligned (g : Globals) (v : string) cb (fig : Figure) :
  cb ∈ callbacks →
  cb g v = Ok fig →
  ∃ n, series_length (fig_x fig) n ∧ series_length (fig_y fig) n ∧
       series_length (fig_names fig) n ∧ series_length (fig_color fig) n ∧
       (fig_kind fig ≠ Bar → n = length (df g)).
Proof.
  unfold callbacks. rewrite !elem_of_cons, elem_of_nil.
  intros Hcb; destruct_or!; try done; subst cb.
  - unfold update_main_graph, px_histogram. rewrite !column_frame_of_df.
    change (assoc "No-show" df_columns) with (Some (λ r, VStr (No_show r))).
    destruct (assoc v df_columns) as [cell|]; [|by destruct (decide _)].
    destruct (decide _); intros [= <-]; exists (length (df g)); cbn; by rewrite !length_fmap.
  - unfold update_target_graph, px_pie. rewrite !column_frame_of_df.
    change (assoc "No-show" df_columns) with (Some (λ r, VStr (No_show r))).
    intros [= <-]. exists (length (df g)). cbn. by rewrite !length_fmap.
  - unfold update_gender_graph.
    destruct (px_bar _ _ _ _ _ _ _ _) as [f|] eqn:Hf; [|done]. intros [= <-].
    apply impact_series_aligned in Hf as (n & ? & ? & ? & ? & Hkind); [|done..].
    exists n. cbn [update_layout fig_x fig_y fig_names fig_color fig_kind].
    by rewrite Hkind.
  - unfold update_sms_graph.
    destruct (px_bar _ _ _ _ _ _ _ _) as [f|] eqn:Hf; [|done]. intros [= <-].
    apply impact_series_aligned in Hf as (n & ? & ? & ? & ? & Hkind); [|done..].
    exists n. cbn [update_layout fig_x fig_y fig_names fig_color fig_kind].
    by rewrite Hkind.
  - unfold update_waiting_by_day, px_box. rewrite !column_frame_of_df.
    change (assoc "No-show" df_columns) with (Some (λ r, VStr (No_show r))).
    change (assoc "AppointmentDayOfWeek" df_columns)
      with (Some (λ r, VStr (AppointmentDayOfWeek r))).
    change (assoc "WaitingDays" df_columns) with (Some (λ r, VInt (WaitingDays r))).
    intros [= <-]. exists (length (df g)). cbn. by rewrite !length_fmap.
  - unfold update_age_rate_graph.
    destruct (px_bar _ _ _ _ _ _ _ _) as [f|] eqn:Hf; [|done]. intros [= <-].
    apply rate_series_aligned in Hf as (n & ? & ? & ? & ? & Hkind); [|done].
    exists n. cbn [update_layout fig_x fig_y fig_names fig_color fig_kind].
    by rewrite Hkind.
  - unfold update_day_rate_graph.
    destruct (px_bar _ _ _ _ _ _ _ _) as [f|] eqn:Hf; [|done]. intros [= <-].
    apply rate_series_aligned in Hf as (n & ? & ? & ? & ? & Hkind); [|done].
    exists n. cbn [update_layout fig_x fig_y fig_names fig_color fig_kind].
    by rewrite Hkind.
Qed.

Lemma figure_series_aligned_witness :
  ∃ fig n, update_sms_graph (load decade_sample) "Age" = Ok fig ∧
    series_length (fig_x fig) n ∧ series_length (fig_y fig) n ∧
    series_length (fig_names fig) n ∧ series_length (fig_color fig) n.
Proof.
  destruct (update_sms_graph_Ok (load decade_sample) "Age") as [fig Hfig].
  assert (update_sms_graph ∈ callbacks) as Hcb by (unfold callbacks; do 3 right; left).
  destruct (figure_series_aligned (load decade_sample) "Age" update_sms_graph fig Hcb Hfig)
    as (n & Hx & Hy & Hn & Hc & _).
  by exists fig, n.
Defined.
